(** * Few-shot regional-bias evaluation script: a shallow embedding

    Source: [src/few_shot_150_examples/deepseek_r1_distill_7b.py].

    Modelling choices.
    - A Python [str] is a Rocq [string]; a character is a code point below
      256 ([ascii]).  [str.lower], the regex class [\s] and [str.strip] are
      given by their Python tables restricted to that range.
    - The regex passes of [clean_text] run over the character list of the
      string, each as the left-to-right scan [re.sub] performs.
    - The language model, its tokenizer and numpy's seeded permutation are
      parameters of the development (Section variables).
    - Exceptions and the mutable state that survives them (the result lists,
      the log, the files written) are threaded through a small
      state-and-exception monad. *)

From Stdlib Require Import List Bool Arith ZArith Lia Ascii String.
From Stdlib Require Import DecimalString Permutation.
Import ListNotations.

Local Open Scope string_scope.
Local Open Scope Z_scope.

(** ** Characters and strings as Python sees them *)

Module PyStr.

(** Code point of a character. *)
Definition ord (c : ascii) : N := N_of_ascii c.

Definition in_range (lo hi : N) (c : ascii) : bool :=
  (N.leb lo (ord c) && N.leb (ord c) hi)%bool.

(** [a-z], [A-Z], [0-9] as the regex character class reads them. *)
Definition is_lower (c : ascii) : bool := in_range 97 122 c.
Definition is_upper (c : ascii) : bool := in_range 65 90 c.
Definition is_digit (c : ascii) : bool := in_range 48 57 c.

(** [\s] on a [str] pattern and [str.isspace]: TAB..CR, FS..US, space,
    NEL (0x85) and NBSP (0xA0) are the whitespace code points below 256. *)
Definition isspace (c : ascii) : bool :=
  (in_range 9 13 c || in_range 28 32 c
   || N.eqb (ord c) 133 || N.eqb (ord c) 160)%bool.

(** [str.lower] on one code point: A-Z, and the Latin-1 capitals
    0xC0..0xDE except the multiplication sign 0xD7, move up by 32. *)
Definition lower_char (c : ascii) : ascii :=
  if (is_upper c || (in_range 192 222 c && negb (N.eqb (ord c) 215)))%bool
  then ascii_of_N (ord c + 32)
  else c.

Definition chars (s : string) : list ascii := list_ascii_of_string s.
Definition of_chars (l : list ascii) : string := string_of_list_ascii l.

(** [s.lower()] *)
Definition lower (s : string) : string := of_chars (map lower_char (chars s)).

(** [s.lstrip()], [s.rstrip()], [s.strip()] on character lists. *)
Fixpoint lstrip_chars (l : list ascii) : list ascii :=
  match l with
  | [] => []
  | c :: l' => if isspace c then lstrip_chars l' else l
  end.

Fixpoint rstrip_chars (l : list ascii) : list ascii :=
  match l with
  | [] => []
  | c :: l' =>
      match rstrip_chars l' with
      | [] => if isspace c then [] else [c]
      | r => c :: r
      end
  end.

Definition strip_chars (l : list ascii) : list ascii :=
  rstrip_chars (lstrip_chars l).

Definition strip (s : string) : string := of_chars (strip_chars (chars s)).

(** [s.startswith(p)] *)
Definition startswith (s p : string) : bool := String.prefix p s.

(** [sub in s] *)
Fixpoint contains (sub s : string) : bool :=
  (String.prefix sub s
   || match s with
      | EmptyString => false
      | String _ s' => contains sub s'
      end)%bool.

(** [s[n:]] and [s[:n]] for a non-negative [n], [s[-n:]] for a positive [n]. *)
Definition slice_from (n : nat) (s : string) : string :=
  String.substring n (String.length s - n) s.
Definition slice_to (n : nat) (s : string) : string :=
  String.substring 0 n s.
Definition slice_last (n : nat) (s : string) : string :=
  slice_from (String.length s - n) s.

(** [str(z)] for an [int]. *)
Definition str_of_Z (z : Z) : string := NilZero.string_of_int (Z.to_int z).
Definition str_of_nat (n : nat) : string := str_of_Z (Z.of_nat n).

End PyStr.
Import PyStr.

(** ** Values a DataFrame cell can hold *)

Inductive PyValue : Type :=
| VStr (s : string)
| VInt (z : Z)
| VBool (b : bool)
| VNone
| VNaN.

(** [str(v)] *)
Definition py_str (v : PyValue) : string :=
  match v with
  | VStr s => s
  | VInt z => str_of_Z z
  | VBool true => "True"
  | VBool false => "False"
  | VNone => "None"
  | VNaN => "nan"
  end.

(** ** [clean_text] *)

(** [re.sub(r"http\S+", "", text)].  The scan emits characters until it
    stands on [http] followed by a non-whitespace character; the greedy
    [\S+] then swallows the whole run of non-whitespace characters
    ([deleting = true]) and the scan resumes at the whitespace after it. *)
Definition at_url (l : list ascii) : bool :=
  match l with
  | "h"%char :: "t"%char :: "t"%char :: "p"%char :: c :: _ => negb (isspace c)
  | _ => false
  end.

Fixpoint sub_url (deleting : bool) (l : list ascii) : list ascii :=
  match l with
  | [] => []
  | c :: l' =>
      if deleting then
        if isspace c then c :: sub_url false l' else sub_url true l'
      else
        if at_url l then sub_url true l' else c :: sub_url false l'
  end.

(** [re.sub(r"[^a-zA-Z0-9\s]", "", text)] *)
Definition keep_char (c : ascii) : bool :=
  (is_lower c || is_upper c || is_digit c || isspace c)%bool.

Definition sub_special (l : list ascii) : list ascii := filter keep_char l.

(** [re.sub(r"\s+", " ", text)]: every maximal run of whitespace becomes
    one space; [in_run] says the previous character was whitespace. *)
Fixpoint sub_spaces (in_run : bool) (l : list ascii) : list ascii :=
  match l with
  | [] => []
  | c :: l' =>
      if isspace c then
        if in_run then sub_spaces true l' else " "%char :: sub_spaces true l'
      else c :: sub_spaces false l'
  end.

Definition clean_chars (l : list ascii) : list ascii :=
  let text := map lower_char l in
  let text := sub_url false text in
  let text := sub_special text in
  strip_chars (sub_spaces false text).

Definition clean_text (text : PyValue) : string :=
  of_chars (clean_chars (chars (py_str text))).

(** ** Exceptions and surviving state *)

Inductive outcome (A : Type) : Type :=
| Ok (a : A)
| Raise (e : string).
Arguments Ok {A} a.
Arguments Raise {A} e.

Inductive level : Type := INFO | WARNING | ERROR.

(** One row of a checkpoint CSV. *)
Record CkRow : Type := mkCkRow {
  ck_Comment : PyValue;
  ck_Cleaned_Comment : string;
  ck_True_Label : Z;
  ck_Predicted : Z;
  ck_Model_Output : string
}.

(** What a raised exception does not undo: the two result lists of
    [batch_predict], the records handed to the logger, the CSV files
    written (path and rows, oldest first). *)
Record State : Type := mkState {
  predictions : list Z;
  raw_outputs : list string;
  log : list (level * string);
  files : list (string * list CkRow)
}.

Definition M (A : Type) : Type := State -> outcome A * State.

Definition ret {A} (a : A) : M A := fun st => (Ok a, st).

Definition raise {A} (e : string) : M A := fun st => (Raise e, st).

Definition bind {A B} (m : M A) (k : A -> M B) : M B :=
  fun st =>
    match m st with
    | (Ok a, st') => k a st'
    | (Raise e, st') => (Raise e, st')
    end.

(** [try: body except Exception as e: handler(e)] *)
Definition try_except {A} (body : M A) (handler : string -> M A) : M A :=
  fun st =>
    match body st with
    | (Ok a, st') => (Ok a, st')
    | (Raise e, st') => handler e st'
    end.

(** A value computed by code that may raise. *)
Definition lift {A} (o : outcome A) : M A := fun st => (o, st).

Declare Scope monad_scope.
Delimit Scope monad_scope with monad.
Notation "x <- m ;; k" := (bind m (fun x => k))
  (at level 61, m at next level, right associativity) : monad_scope.
Notation "m ;; k" := (bind m (fun _ => k))
  (at level 61, right associativity) : monad_scope.
Local Open Scope monad_scope.

Definition logger (lv : level) (msg : string) : M unit :=
  fun st => (Ok tt, mkState (predictions st) (raw_outputs st)
                            (log st ++ [(lv, msg)]) (files st)).

Definition predictions_append (p : Z) : M unit :=
  fun st => (Ok tt, mkState (predictions st ++ [p]) (raw_outputs st)
                            (log st) (files st)).

Definition raw_outputs_append (r : string) : M unit :=
  fun st => (Ok tt, mkState (predictions st) (raw_outputs st ++ [r])
                            (log st) (files st)).

Definition to_csv (path : string) (rows : list CkRow) : M unit :=
  fun st => (Ok tt, mkState (predictions st) (raw_outputs st)
                            (log st) (files st ++ [(path, rows)])).

Definition get_predictions : M (list Z) := fun st => (Ok (predictions st), st).
Definition get_raw_outputs : M (list string) := fun st => (Ok (raw_outputs st), st).

(** [for i, x in enumerate(xs, start): body(i, x)]; an exception leaving
    the body leaves the loop. *)
Fixpoint for_each {A} (body : nat -> A -> M unit) (start : nat) (xs : list A)
  : M unit :=
  match xs with
  | [] => ret tt
  | x :: xs' => body start x ;; for_each body (S start) xs'
  end.

(** [a % b] on Python integers.  The text of the ZeroDivisionError
    differs between interpreter versions; no statement depends on it. *)
Definition ZeroDivisionError_msg : string := "integer modulo by zero".

Definition py_mod (a b : Z) : outcome Z :=
  if b =? 0 then Raise ZeroDivisionError_msg else Ok (a mod b).

(** ** Text constants *)

Definition nl : string := String (ascii_of_nat 10) EmptyString.
Definition dq : string := String (ascii_of_nat 34) EmptyString.

(** [os.path.join(a, b)] on POSIX. *)
Definition ends_with_slash (s : string) : bool :=
  match rev (chars s) with
  | "/"%char :: _ => true
  | _ => false
  end.

Definition path_join (a b : string) : string :=
  if startswith b "/" then b
  else if (String.eqb a EmptyString || ends_with_slash a)%bool then a ++ b
  else a ++ "/" ++ b.

(** ** Data frames *)

(** A row as [pd.read_csv] delivers it. *)
Record RawRow : Type := mkRawRow {
  raw_Comment : PyValue;
  raw_Level_1 : Z
}.

(** A row once [load_datasets] has added the cleaned text. *)
Record Row : Type := mkRow {
  Comment : PyValue;
  Level_1 : Z;
  Cleaned_Comment : string
}.

(** [series.str.strip()]: a cell that is not a string becomes NaN. *)
Definition str_strip (v : PyValue) : PyValue :=
  match v with
  | VStr s => VStr (strip s)
  | _ => VNaN
  end.

(** Equality of the cells [str_strip] yields, as [isin] tests it (NaN
    matches NaN). *)
Definition cell_eqb (a b : PyValue) : bool :=
  match a, b with
  | VStr s, VStr t => String.eqb s t
  | VNaN, VNaN => true
  | _, _ => false
  end.

Definition isin (v : PyValue) (values : list PyValue) : bool :=
  existsb (cell_eqb v) values.

(** [df.head(n)] for a positive [n]. *)
Definition head {A} (n : Z) (df : list A) : list A := firstn (Z.to_nat n) df.

Definition add_cleaned (r : RawRow) : Row :=
  mkRow (raw_Comment r) (raw_Level_1 r) (clean_text (raw_Comment r)).

Definition len {A} (l : list A) : Z := Z.of_nat (List.length l).

(** ** The pipeline *)

Section Pipeline.

(** [pd.read_csv(path)] when the file exists, [None] when
    [os.path.exists(path)] is false. *)
Variable read_csv : string -> option (list RawRow).

(** [np.random.RandomState(seed).permutation(n)], the row positions that
    [df.sample(frac=1, random_state=seed)] takes. *)
Variable permutation : Z -> nat -> list nat.

(** [tokenizer(prompt, return_tensors="pt", truncation=False)
      .input_ids.shape[1]], or the exception it raises. *)
Variable count_tokens : string -> outcome Z.

(** Lines 259-282 of [predict_with_model]: tokenize with truncation at
    [max_length], generate greedily, decode; the decoded text, or the
    exception one of the three raises. *)
Variable generate : string -> Z -> outcome string.

(** *** Dataset Loader *)

Definition load_datasets (examples_path test_path : string)
    (test_limit : option Z) : M (list Row * list Row) :=
  match read_csv examples_path with
  | None =>
      logger ERROR ("Examples file not found: " ++ examples_path) ;;
      raise ("Examples file not found: " ++ examples_path)
  | Some examples_df =>
  match read_csv test_path with
  | None =>
      logger ERROR ("Test dataset file not found: " ++ test_path) ;;
      raise ("Test dataset file not found: " ++ test_path)
  | Some test_df =>
      logger INFO ("Loading examples from " ++ examples_path) ;;
      logger INFO ("Loading test dataset from " ++ test_path) ;;
      logger INFO ("Loaded " ++ str_of_Z (len examples_df) ++ " examples and "
                   ++ str_of_Z (len test_df) ++ " test comments") ;;
      let bias_examples := filter (fun r => raw_Level_1 r >=? 1) examples_df in
      let non_bias_examples := filter (fun r => raw_Level_1 r =? 0) examples_df in
      logger INFO ("Found " ++ str_of_Z (len bias_examples)
                   ++ " regional bias examples and "
                   ++ str_of_Z (len non_bias_examples)
                   ++ " non-regional bias examples") ;;
      let expected_count := 75 in
      (if (negb (len bias_examples =? expected_count)
           || negb (len non_bias_examples =? expected_count))%bool
       then logger WARNING
              ("Expected " ++ str_of_Z expected_count
               ++ " examples of each class, but found "
               ++ str_of_Z (len bias_examples) ++ " bias and "
               ++ str_of_Z (len non_bias_examples) ++ " non-bias examples")
       else ret tt) ;;
      let examples_comments := map (fun r => str_strip (raw_Comment r)) examples_df in
      let test_df :=
        filter (fun r => negb (isin (str_strip (raw_Comment r)) examples_comments))
               test_df in
      logger INFO ("After removing overlapping comments, "
                   ++ str_of_Z (len test_df) ++ " test comments remain") ;;
      logger INFO "Cleaning comment text..." ;;
      let test_df := map add_cleaned test_df in
      let examples_df := map add_cleaned examples_df in
      match test_limit with
      | Some n =>
          if n >? 0 then
            logger INFO ("Limiting test set to " ++ str_of_Z n ++ " examples") ;;
            ret (examples_df, head n test_df)
          else ret (examples_df, test_df)
      | None => ret (examples_df, test_df)
      end
  end
  end.

(** *** Prompt Builder *)

(** [df.sample(frac=1, random_state=random_seed)]: the rows at the
    positions numpy draws.  numpy only draws positions of the frame; a
    position outside it contributes no row here. *)
Definition sample {A} (df : list A) (random_seed : Z) : list A :=
  flat_map (fun i => match nth_error df i with
                     | Some r => [r]
                     | None => []
                     end)
           (permutation random_seed (List.length df)).

(** The four instruction lines that open both prompt templates. *)
Definition instructions : string :=
  "You are an expert in identifying regional biases in comments about Indian states and regions. "
  ++ "Task: Classify if the comment contains regional bias related to Indian states or regions."
  ++ nl ++ nl
  ++ "Instructions:" ++ nl
  ++ "- Regional Bias (1): Comments that contain stereotypes, prejudices, or biases about specific Indian states or regions."
  ++ nl
  ++ "- Non-Regional Bias (0): Comments that don't contain regional stereotypes or biases about Indian states."
  ++ nl ++ nl.

(** The two lines the loop body of [create_few_shot_prompt] adds. *)
Definition example_lines (r : Row) : string :=
  let classification := if Level_1 r >=? 1 then 1 else 0 in
  "Comment: " ++ dq ++ Cleaned_Comment r ++ dq ++ nl
  ++ "Classification: " ++ str_of_Z classification ++ nl ++ nl.

Definition target_block (comment : string) : string :=
  "Now classify this comment:" ++ nl ++ dq ++ comment ++ dq ++ nl
  ++ "Classification:".

Definition create_few_shot_prompt (examples_df : list Row) (comment : string)
    (random_seed : Z) : string :=
  let all_examples := sample examples_df random_seed in
  let prompt := instructions ++ "Examples:" ++ nl in
  let prompt := fold_left (fun prompt r => prompt ++ example_lines r)
                          all_examples prompt in
  prompt ++ target_block comment.

(** The simplified prompt of [batch_predict], lines 360-366. *)
Definition simplified_prompt (comment : string) : string :=
  instructions
  ++ "Examples are provided separately. Based on these instructions:" ++ nl ++ nl
  ++ "Classify this comment:" ++ nl ++ dq ++ comment ++ dq ++ nl
  ++ "Classification:".

(** *** Response Parser and Model Runner *)

(** Lines 301-323 of [predict_with_model]. *)
Definition parse_response (generated_text full_output : string)
  : M (Z * string) :=
  if (startswith generated_text "1" || String.eqb generated_text "1")%bool then
    ret (1, full_output)
  else if (startswith generated_text "0" || String.eqb generated_text "0")%bool then
    ret (0, full_output)
  else
    let last_part := lower (slice_last 50 full_output) in
    if (contains "1" last_part && negb (contains "0" last_part))%bool then
      ret (1, full_output)
    else if (contains "0" last_part && negb (contains "1" last_part))%bool then
      ret (0, full_output)
    else if (contains "regional bias" last_part || contains "bias" last_part)%bool then
      ret (1, full_output)
    else if (contains "non-regional" last_part || contains "no bias" last_part)%bool then
      ret (0, full_output)
    else
      logger WARNING ("Unclear classification from response: " ++ last_part) ;;
      ret (0, full_output).

(** The logger of a run is at level INFO, so the two [logger.debug]
    calls emit nothing. *)
Definition predict_with_model (prompt : string) (max_length : Z)
  : M (Z * string) :=
  try_except
    (full_output <- lift (generate prompt max_length) ;;
     let prompt_length := String.length prompt in
     let generated_text :=
       if startswith full_output prompt
       then strip (slice_from prompt_length full_output)
       else strip (slice_last 50 full_output) in
     parse_response generated_text full_output)
    (fun e =>
       logger ERROR ("Error in prediction: " ++ e) ;;
       ret (0, "ERROR: " ++ e)).

(** *** Batch Driver *)

(** [bool(output_dir)] *)
Definition truthy (output_dir : option string) : bool :=
  match output_dir with
  | Some d => negb (String.eqb d EmptyString)
  | None => false
  end.

Definition dir_of (output_dir : option string) : string :=
  match output_dir with
  | Some d => d
  | None => EmptyString
  end.

(** [pd.DataFrame({...})] over five columns: the constructor refuses
    columns of different lengths. *)
Fixpoint zip_rows (c1 : list PyValue) (c2 : list string) (c3 c4 : list Z)
    (c5 : list string) : list CkRow :=
  match c1, c2, c3, c4, c5 with
  | a :: c1', b :: c2', c :: c3', d :: c4', e :: c5' =>
      mkCkRow a b c d e :: zip_rows c1' c2' c3' c4' c5'
  | _, _, _, _, _ => []
  end.

Definition DataFrame (c1 : list PyValue) (c2 : list string) (c3 c4 : list Z)
    (c5 : list string) : outcome (list CkRow) :=
  let n := List.length c1 in
  if (Nat.eqb (List.length c2) n && Nat.eqb (List.length c3) n
      && Nat.eqb (List.length c4) n && Nat.eqb (List.length c5) n)%bool
  then Ok (zip_rows c1 c2 c3 c4 c5)
  else Raise "All arrays must be of the same length".

Definition model_short_name : string := "deepseek_7b_150examples".

Section BatchPredict.

Variables (test_df examples_df : list Row).
Variables (max_length random_seed checkpoint_interval : Z).
Variable output_dir : option string.

Definition test_comments : list string := map Cleaned_Comment test_df.

(** Lines 384-396: the checkpoint written after record [i]. *)
Definition save_checkpoint (i : nat) : M unit :=
  preds <- get_predictions ;;
  raws <- get_raw_outputs ;;
  checkpoint_df <- lift (DataFrame
    (map Comment (firstn (i + 1) test_df))
    (map Cleaned_Comment (firstn (i + 1) test_df))
    (map (fun r => if Level_1 r >=? 1 then 1 else 0) (firstn (i + 1) test_df))
    (firstn (i + 1) preds)
    (map (fun output => slice_to 500 output) (firstn (i + 1) raws))) ;;
  let checkpoint_path :=
    path_join (path_join (dir_of output_dir) "checkpoints")
              (model_short_name ++ "_checkpoint_" ++ str_of_nat (i + 1) ++ ".csv") in
  to_csv checkpoint_path checkpoint_df ;;
  logger INFO ("Saved checkpoint at " ++ checkpoint_path).

(** Lines 349-366: the prompt of a record, the full few-shot prompt
    unless its token count exceeds [max_length]. *)
Definition choose_prompt (comment : string) : M string :=
  let prompt := create_few_shot_prompt examples_df comment random_seed in
  input_ids_length <- lift (count_tokens prompt) ;;
  if input_ids_length >? max_length then
    logger WARNING ("Prompt too long (" ++ str_of_Z input_ids_length
                    ++ " tokens). Using simplified version.") ;;
    ret (simplified_prompt comment)
  else ret prompt.

(** Lines 378-381. *)
Definition log_progress (i : nat) (prediction : Z) : M unit :=
  if ((Z.of_nat i + 1) mod 10 =? 0) || Nat.eqb i 0 then
    logger INFO ("Processed example " ++ str_of_nat (i + 1) ++ "/"
                 ++ str_of_nat (List.length test_comments)) ;;
    logger INFO ("Decision: " ++ str_of_Z prediction
                 ++ " (0=non-regional, 1=regional)")
  else ret tt.

(** Lines 383-396; [and] and [or] evaluate left to right and stop early. *)
Definition checkpoint_step (i : nat) : M unit :=
  due <-
    (if truthy output_dir then
       m <- lift (py_mod (Z.of_nat i + 1) checkpoint_interval) ;;
       ret ((m =? 0) || (Z.of_nat i =? len test_comments - 1))
     else ret false) ;;
  if due then save_checkpoint i else ret tt.

(** Lines 371-396: predict, store, log, checkpoint. *)
Definition finish_record (i : nat) (prompt : string) : M unit :=
  result <- predict_with_model prompt max_length ;;
  let prediction := fst result in
  let raw_output := snd result in
  predictions_append prediction ;;
  raw_outputs_append raw_output ;;
  log_progress i prediction ;;
  checkpoint_step i.

(** Lines 349-396: the body of the [try]. *)
Definition process_record (i : nat) (comment : string) : M unit :=
  prompt <- choose_prompt comment ;;
  finish_record i prompt.

(** Lines 348-401: one turn of the loop, [try] and [except]. *)
Definition loop_body (i : nat) (comment : string) : M unit :=
  try_except
    (process_record i comment)
    (fun e =>
       logger ERROR ("Error processing comment " ++ str_of_nat (i + 1)
                     ++ ": " ++ e) ;;
       predictions_append 0 ;;
       raw_outputs_append ("ERROR: " ++ e)).

Definition batch_predict : M (list Z * list string) :=
  (fun st => (Ok tt, mkState [] [] (log st) (files st))) ;;
  (if truthy output_dir then
     logger INFO ("Directory created/verified: "
                  ++ path_join (dir_of output_dir) "checkpoints")
   else ret tt) ;;
  for_each loop_body 0 test_comments ;;
  preds <- get_predictions ;;
  raws <- get_raw_outputs ;;
  ret (preds, raws).

End BatchPredict.

(** *** Metrics and reporting: the data part of [save_results] *)

Definition true_labels (test_df : list Row) : list Z :=
  map (fun r => if Level_1 r >=? 1 then 1 else 0) test_df.

Definition truncated_outputs (raw_outputs : list string) : list string :=
  map (fun output => slice_to 500 output) raw_outputs.

(** [results_df['Predicted'] = predictions]: pandas refuses a column
    whose length is not the frame's. *)
Definition assign_column {A B} (df : list A) (column : list B)
  : outcome (list (A * B)) :=
  if Nat.eqb (List.length column) (List.length df)
  then Ok (combine df column)
  else Raise ("Length of values (" ++ str_of_nat (List.length column)
              ++ ") does not match length of index ("
              ++ str_of_nat (List.length df) ++ ")").

End Pipeline.

(** ** Predicates the statements use *)

(** A lowercase letter, a digit or the space character. *)
Definition allowed_char (c : ascii) : bool :=
  (is_lower c || is_digit c || Ascii.eqb c " ")%bool.

(** No two space characters in a row; [prev] says the character before
    the list was a space. *)
Fixpoint spaced (prev : bool) (l : list ascii) : bool :=
  match l with
  | [] => true
  | c :: l' =>
      if Ascii.eqb c " " then (negb prev && spaced true l')%bool
      else spaced false l'
  end.

(** Some position of the text stands on [http] followed by a
    non-whitespace character, the pattern [http\S+] of [clean_text]. *)
Fixpoint has_url_chars (l : list ascii) : bool :=
  match l with
  | [] => false
  | _ :: l' => (at_url l || has_url_chars l')%bool
  end.

Definition has_url (s : string) : bool := has_url_chars (chars s).

(** The Response Parser as the specification words it: an ordered list
    of rules over the continuation and the full output, each with the
    label it gives; the first rule that matches decides. *)
Definition rule : Type := (string -> string -> bool) * Z.

Definition tail50 (full_output : string) : string :=
  lower (slice_last 50 full_output).

Definition spec_rules : list rule :=
  [ (fun g _ => (startswith g "1" || String.eqb g "1")%bool, 1);
    (fun g _ => (startswith g "0" || String.eqb g "0")%bool, 0);
    (fun _ f => (contains "1" (tail50 f) && negb (contains "0" (tail50 f)))%bool, 1);
    (fun _ f => (contains "0" (tail50 f) && negb (contains "1" (tail50 f)))%bool, 0);
    (fun _ f => (contains "regional bias" (tail50 f) || contains "bias" (tail50 f))%bool, 1);
    (fun _ f => (contains "non-regional" (tail50 f) || contains "no bias" (tail50 f))%bool, 0) ].

Fixpoint first_match (rules : list rule) (default : Z) (g f : string) : Z :=
  match rules with
  | [] => default
  | (applies, label) :: rules' =>
      if applies g f then label else first_match rules' default g f
  end.


(** [label] is the binary label of severity [level]: 1 from 1 upwards,
    0 below. *)
Definition binarized (level label : Z) : Prop :=
  (level >= 1 -> label = 1) /\ (level < 1 -> label = 0).

(** Concatenation of a list of text blocks. *)
Definition join (blocks : list string) : string :=
  fold_right String.append EmptyString blocks.

(** A frame of the loader's world: no file, and the two CSV files of a
    small run. *)
Definition st0 : State := mkState [] [] [] [].

Definition demo_csv (path : string) : option (list RawRow) :=
  if String.eqb path "examples.csv" then
    Some [mkRawRow (VStr " Biharis are lazy ") 2; mkRawRow (VStr "Nice weather") 0]
  else if String.eqb path "test.csv" then
    Some [mkRawRow (VStr "Biharis are lazy") 1;
          mkRawRow (VStr "Tamil food is great") 0;
          mkRawRow (VStr "All Punjabis are loud!") 3]
  else None.

(** Seeded permutations for small runs: even seeds keep the order, odd
    seeds reverse it. *)
Definition demo_permutation (seed : Z) (n : nat) : list nat :=
  if Z.even seed then seq 0 n else rev (seq 0 n).

(** A computation leaves a component of the state as it found it,
    whether it returns or raises. *)
Definition keeps {A B} (proj : State -> B) (m : M A) : Prop :=
  forall st, proj (snd (m st)) = proj st.

(** The continuation the Model Runner isolates from a decoded output. *)
Definition continuation (prompt full_output : string) : string :=
  if startswith full_output prompt
  then strip (slice_from (String.length prompt) full_output)
  else strip (slice_last 50 full_output).

Section Readings.

Variable permutation : Z -> nat -> list nat.
Variable count_tokens : string -> outcome Z.
Variable generate : string -> Z -> outcome string.
Variables (test_df examples_df : list Row).
Variables (max_length random_seed checkpoint_interval : Z).
Variable output_dir : option string.

Definition full_prompt (comment : string) : string :=
  create_few_shot_prompt permutation examples_df comment random_seed.

(** The prompt the model is given when the full prompt counts [n] tokens. *)
Definition prompt_for (n : Z) (comment : string) : string :=
  if n >? max_length then simplified_prompt comment else full_prompt comment.

(** Label and raw output the Model Runner yields for a prompt. *)
Definition model_entry (prompt : string) : Z * string :=
  match generate prompt max_length with
  | Raise e => (0, "ERROR: " ++ e)
  | Ok out => (first_match spec_rules 0 (continuation prompt out) out, out)
  end.

(** Label and raw output of a test record. *)
Definition record_entry (comment : string) : Z * string :=
  match count_tokens (full_prompt comment) with
  | Raise e => (0, "ERROR: " ++ e)
  | Ok n => model_entry (prompt_for n comment)
  end.

(** Token counting succeeds on the record: it does not take the
    driver's [except] branch before its result is stored. *)
Definition counted (comment : string) : bool :=
  match count_tokens (full_prompt comment) with
  | Ok _ => true
  | Raise _ => false
  end.

(** Processing the record raises [msg], while counting tokens or while
    generating. *)
Definition record_raises (comment msg : string) : Prop :=
  count_tokens (full_prompt comment) = Raise msg \/
  exists n, count_tokens (full_prompt comment) = Ok n /\
            generate (prompt_for n comment) max_length = Raise msg.

(** The modulo of the checkpoint test raises on every record. *)
Definition modulo_raises : bool :=
  (truthy output_dir && (checkpoint_interval =? 0))%bool.

(** Everything one turn of the loop appends to the result lists. *)
Definition entries_of (comment : string) : list (Z * string) :=
  record_entry comment
  :: (if (modulo_raises && counted comment)%bool
      then [(0, "ERROR: " ++ ZeroDivisionError_msg)]
      else []).

Definition all_entries : list (Z * string) :=
  flat_map entries_of (test_comments test_df).

(** Record count [m] (1-based) is a multiple of the interval or the
    last one. *)
Definition checkpoint_due (m : nat) : bool :=
  ((Z.of_nat m mod checkpoint_interval =? 0)
   || Nat.eqb m (List.length test_df))%bool.

Definition checkpoint_path (m : nat) : string :=
  path_join (path_join (dir_of output_dir) "checkpoints")
            (model_short_name ++ "_checkpoint_" ++ str_of_nat m ++ ".csv").

(** The row a checkpoint holds for a test record. *)
Definition expected_row (r : Row) : CkRow :=
  mkCkRow (Comment r) (Cleaned_Comment r)
          (if 1 <=? Level_1 r then 1 else 0)
          (fst (record_entry (Cleaned_Comment r)))
          (slice_to 500 (snd (record_entry (Cleaned_Comment r)))).

Definition checkpoint_file (m : nat) : string * list CkRow :=
  (checkpoint_path m, map expected_row (firstn m test_df)).

(** The checkpoint after record count [m] is written. *)
Definition checkpoint_written (m : nat) : bool :=
  (truthy output_dir && negb (checkpoint_interval =? 0)
   && checkpoint_due m
   && counted (nth (m - 1) (test_comments test_df) EmptyString))%bool.

End Readings.

(** The rows of the results so far: each test record with its
    binarized label, its predicted label and its raw output cut to 500
    characters. *)
Definition result_rows (test_df : list Row) (preds : list Z)
    (raws : list string) : list CkRow :=
  map (fun x => mkCkRow (Comment (fst x)) (Cleaned_Comment (fst x))
                        (if 1 <=? Level_1 (fst x) then 1 else 0)
                        (fst (snd x)) (slice_to 500 (snd (snd x))))
      (combine test_df (combine preds raws)).

(** A small run: one token per character, a model that echoes the
    prompt and answers 1, a tokenizer that fails on the comment [boom]. *)
Definition demo_count (prompt : string) : outcome Z :=
  if contains "boom" prompt then Raise "tokenizer failed"
  else Ok (Z.of_nat (String.length prompt)).

Definition demo_generate (prompt : string) (max_length : Z) : outcome string :=
  if contains "crash" prompt then Raise "CUDA out of memory"
  else Ok (prompt ++ " 1").

Definition demo_examples : list Row :=
  [mkRow (VStr "A!") 2 "a"; mkRow (VStr "B") 0 "b"].

Definition demo_tests : list Row :=
  [mkRow (VStr "Fine.") 0 "fine"; mkRow (VStr "Boom") 1 "boom";
   mkRow (VStr "Crash?") 0 "crash"].

Definition demo_counted_tests : list Row :=
  [mkRow (VStr "Fine.") 0 "fine"; mkRow (VStr "Crash?") 2 "crash";
   mkRow (VStr "Calm") 1 "calm"].

Definition demo_run (test_df : list Row) (max_length checkpoint_interval : Z)
    (output_dir : option string) : outcome (list Z * list string) * State :=
  batch_predict demo_permutation demo_count demo_generate test_df demo_examples
                max_length 42 checkpoint_interval output_dir st0.


(** The data part of [save_results], lines 420-425: the test frame
    with the columns [Predicted] and [Model_Output] attached. *)
Definition results_frame (test_df : list Row) (predictions : list Z)
    (raw_outputs : list string) : outcome (list (Row * Z * string)) :=
  match assign_column test_df predictions with
  | Raise e => Raise e
  | Ok results_df => assign_column results_df (truncated_outputs raw_outputs)
  end.

(** Number of positions where predicted and true label agree, the
    numerator of [accuracy_score]. *)
Definition correct_count (true_labels predictions : list Z) : nat :=
  List.length (filter (fun tp => fst tp =? snd tp)
                      (combine true_labels predictions)).

Definition is_warning (record : level * string) : bool :=
  match fst record with
  | WARNING => true
  | _ => false
  end.

(** ** Facts about characters and the string passes *)

Lemma chars_of_chars (l : list ascii) : chars (of_chars l) = l.
Proof. apply list_ascii_of_string_of_list_ascii. Qed.

Lemma of_chars_chars (s : string) : of_chars (chars s) = s.
Proof. apply string_of_list_ascii_of_string. Qed.

Ltac each_char c :=
  destruct c as [[] [] [] [] [] [] [] []]; try reflexivity; try discriminate.

Lemma lower_char_not_upper (c : ascii) : is_upper (lower_char c) = false.
Proof. each_char c. Qed.

Lemma allowed_lower_fixed (c : ascii) :
  allowed_char c = true -> lower_char c = c.
Proof. each_char c. Qed.

Lemma allowed_keep (c : ascii) : allowed_char c = true -> keep_char c = true.
Proof. each_char c. Qed.

Lemma allowed_space (c : ascii) :
  allowed_char c = true -> isspace c = true -> c = " "%char.
Proof. each_char c. Qed.

Lemma space_isspace (c : ascii) : Ascii.eqb c " " = true -> isspace c = true.
Proof. each_char c. Qed.

Lemma keep_allowed (c : ascii) :
  keep_char c = true -> is_upper c = false -> isspace c = false ->
  allowed_char c = true.
Proof. each_char c. Qed.

(** The URL pass and the special-character pass only delete. *)
Lemma sub_url_In (b : bool) (l : list ascii) (x : ascii) :
  In x (sub_url b l) -> In x l.
Proof.
  revert b; induction l as [|c l IH]; intros b H; [destruct b; exact H|].
  cbn [sub_url] in H.
  destruct b.
  - destruct (isspace c).
    + destruct H as [H|H]; [now left|right; eauto].
    + right; eauto.
  - destruct (at_url (c :: l)).
    + right; eauto.
    + destruct H as [H|H]; [now left|right; eauto].
Qed.

Lemma sub_url_length (b : bool) (l : list ascii) :
  (List.length (sub_url b l) <= List.length l)%nat.
Proof.
  revert b; induction l as [|c l IH]; intros b; [destruct b; apply Nat.le_refl|].
  cbn [sub_url].
  destruct b.
  - destruct (isspace c); cbn [List.length]; specialize (IH false) as IHf;
      specialize (IH true) as IHt; lia.
  - destruct (at_url (c :: l)); cbn [List.length]; specialize (IH false) as IHf;
      specialize (IH true) as IHt; lia.
Qed.

Lemma sub_url_no_url (l : list ascii) :
  has_url_chars l = false -> sub_url false l = l.
Proof.
  induction l as [|c l IH]; intros H; [reflexivity|].
  cbn [has_url_chars] in H. apply orb_false_iff in H as [H1 H2].
  cbn [sub_url]. rewrite H1. now rewrite IH.
Qed.

Lemma sub_url_shrinks (l : list ascii) :
  has_url_chars l = true ->
  (List.length (sub_url false l) < List.length l)%nat.
Proof.
  induction l as [|c l IH]; intros H; [discriminate|].
  cbn [has_url_chars] in H. cbn [sub_url].
  destruct (at_url (c :: l)) eqn:E.
  - cbn [List.length]. pose proof (sub_url_length true l). lia.
  - cbn [orb] in H. cbn [List.length]. specialize (IH H). lia.
Qed.

(** The whitespace pass. *)
Lemma sub_spaces_spaced (b : bool) (l : list ascii) :
  spaced b (sub_spaces b l) = true.
Proof.
  revert b; induction l as [|c l IH]; intros b; [reflexivity|].
  cbn [sub_spaces]. destruct (isspace c) eqn:E.
  - destruct b; [apply IH|]. cbn [spaced]. cbn. apply IH.
  - cbn [spaced]. destruct (Ascii.eqb c " ") eqn:E'.
    + apply space_isspace in E'. congruence.
    + apply IH.
Qed.

Lemma sub_spaces_chars (b : bool) (l : list ascii) (x : ascii) :
  In x (sub_spaces b l) ->
  x = " "%char \/ (In x l /\ isspace x = false).
Proof.
  revert b; induction l as [|c l IH]; intros b H; [destruct H|].
  cbn [sub_spaces] in H. destruct (isspace c) eqn:E.
  - destruct b.
    + apply IH in H as [H|[H1 H2]]; [now left|right; split; [now right|easy]].
    + destruct H as [H|H]; [now left|].
      apply IH in H as [H|[H1 H2]]; [now left|right; split; [now right|easy]].
  - destruct H as [H|H]; [subst; right; split; [now left|easy]|].
    apply IH in H as [H|[H1 H2]]; [now left|right; split; [now right|easy]].
Qed.

Lemma sub_spaces_length (b : bool) (l : list ascii) :
  (List.length (sub_spaces b l) <= List.length l)%nat.
Proof.
  revert b; induction l as [|c l IH]; intros b; [apply Nat.le_refl|].
  cbn [sub_spaces]. destruct (isspace c); [destruct b|]; cbn [List.length];
    specialize (IH false) as IHf; specialize (IH true) as IHt; lia.
Qed.

Lemma sub_spaces_fixed (b : bool) (l : list ascii) :
  Forall (fun c => allowed_char c = true) l ->
  spaced b l = true -> sub_spaces b l = l.
Proof.
  intros Hall; revert b; induction Hall as [|c l Hc Hl IH]; intros b H;
    [reflexivity|].
  cbn [spaced] in H. cbn [sub_spaces].
  destruct (Ascii.eqb c " ") eqn:E.
  - apply andb_true_iff in H as [Hb H]. destruct b; [discriminate|].
    rewrite (space_isspace _ E). apply Ascii.eqb_eq in E. subst c.
    now rewrite (IH true H).
  - destruct (isspace c) eqn:Es.
    + apply (allowed_space _ Hc) in Es. subst c. discriminate.
    + now rewrite (IH false H).
Qed.

(** [strip]. *)
Lemma spaced_weaken (l : list ascii) : spaced true l = true -> spaced false l = true.
Proof.
  destruct l as [|c l]; [easy|]. cbn [spaced].
  destruct (Ascii.eqb c " "); [discriminate|easy].
Qed.

Lemma lstrip_spaced (b : bool) (l : list ascii) :
  spaced b l = true -> spaced false (lstrip_chars l) = true.
Proof.
  revert b; induction l as [|c l IH]; intros b H; [reflexivity|].
  cbn [lstrip_chars]. destruct (isspace c) eqn:Es.
  - cbn [spaced] in H. destruct (Ascii.eqb c " ").
    + apply andb_true_iff in H as [_ H]. eauto.
    + eauto.
  - cbn [spaced] in H |- *. destruct (Ascii.eqb c " ") eqn:E; [|exact H].
    apply space_isspace in E. congruence.
Qed.

Lemma rstrip_spaced (b : bool) (l : list ascii) :
  spaced b l = true -> spaced b (rstrip_chars l) = true.
Proof.
  revert b; induction l as [|c l IH]; intros b H; [reflexivity|].
  cbn [rstrip_chars]. cbn [spaced] in H.
  destruct (Ascii.eqb c " ") eqn:E.
  - apply andb_true_iff in H as [Hb H]. specialize (IH true H).
    destruct (rstrip_chars l) as [|x r].
    + now rewrite (space_isspace _ E).
    + cbn [spaced] in IH |- *. rewrite E, Hb. exact IH.
  - specialize (IH false H).
    destruct (rstrip_chars l) as [|x r].
    + destruct (isspace c); [reflexivity|]. cbn [spaced]. now rewrite E.
    + cbn [spaced] in IH |- *. rewrite E. exact IH.
Qed.

Lemma lstrip_In (l : list ascii) (x : ascii) : In x (lstrip_chars l) -> In x l.
Proof.
  induction l as [|c l IH]; intros H; [easy|].
  cbn [lstrip_chars] in H. destruct (isspace c); [right; auto|exact H].
Qed.

Lemma rstrip_In (l : list ascii) (x : ascii) : In x (rstrip_chars l) -> In x l.
Proof.
  induction l as [|c l IH]; intros H; [easy|].
  cbn [rstrip_chars] in H. destruct (rstrip_chars l) as [|y r].
  - destruct (isspace c); [easy|]. destruct H as [H|[]]. now left.
  - destruct H as [H|H]; [now left|right; auto].
Qed.

Lemma lstrip_length (l : list ascii) :
  (List.length (lstrip_chars l) <= List.length l)%nat.
Proof.
  induction l as [|c l IH]; [apply Nat.le_refl|].
  cbn [lstrip_chars]. destruct (isspace c); cbn [List.length]; lia.
Qed.

Lemma rstrip_length (l : list ascii) :
  (List.length (rstrip_chars l) <= List.length l)%nat.
Proof.
  induction l as [|c l IH]; [apply Nat.le_refl|].
  cbn [rstrip_chars]. destruct (rstrip_chars l) as [|y r].
  - destruct (isspace c); cbn [List.length]; lia.
  - cbn [List.length] in *. lia.
Qed.

Lemma lstrip_head (l : list ascii) (c : ascii) (m : list ascii) :
  lstrip_chars l = c :: m -> isspace c = false.
Proof.
  induction l as [|a l IH]; intros H; [discriminate|].
  cbn [lstrip_chars] in H. destruct (isspace a) eqn:E; [auto|].
  now inversion H; subst.
Qed.

Lemma rstrip_head (c : ascii) (m : list ascii) :
  isspace c = false -> exists r, rstrip_chars (c :: m) = c :: r.
Proof.
  intros H. cbn [rstrip_chars]. destruct (rstrip_chars m) as [|y r].
  - rewrite H. now exists [].
  - now exists (y :: r).
Qed.

Lemma rstrip_last (l p : list ascii) (c : ascii) :
  rstrip_chars l = (p ++ [c])%list -> isspace c = false.
Proof.
  revert p; induction l as [|a l IH]; intros p H.
  - now destruct p.
  - cbn [rstrip_chars] in H. destruct (rstrip_chars l) as [|y r].
    + destruct (isspace a) eqn:E; [now destruct p|].
      destruct p as [|b p]; [now inversion H; subst|].
      inversion H as [[H1 H2]]. now destruct p.
    + destruct p as [|b p]; [discriminate|].
      inversion H as [[H1 H2]]. now apply (IH p).
Qed.

Lemma rstrip_idem (l : list ascii) :
  rstrip_chars (rstrip_chars l) = rstrip_chars l.
Proof.
  induction l as [|c l IH]; [reflexivity|].
  cbn [rstrip_chars]. destruct (rstrip_chars l) as [|y r] eqn:E.
  - destruct (isspace c) eqn:Es; [reflexivity|]. cbn. now rewrite Es.
  - change (rstrip_chars (c :: y :: r)) with
      (match rstrip_chars (y :: r) with
       | [] => if isspace c then [] else [c]
       | x :: r' => c :: x :: r'
       end).
    now rewrite IH.
Qed.

Lemma strip_head (l : list ascii) (c : ascii) (m : list ascii) :
  strip_chars l = c :: m -> isspace c = false.
Proof.
  unfold strip_chars. destruct (lstrip_chars l) as [|a k] eqn:E; [discriminate|].
  pose proof (lstrip_head _ _ _ E) as Ha.
  destruct (rstrip_head a k Ha) as [r Hr]. rewrite Hr.
  intros H. now inversion H; subst.
Qed.

Lemma strip_idem (l : list ascii) : strip_chars (strip_chars l) = strip_chars l.
Proof.
  unfold strip_chars. destruct (lstrip_chars l) as [|a k] eqn:E; [reflexivity|].
  pose proof (lstrip_head _ _ _ E) as Ha.
  destruct (rstrip_head a k Ha) as [r Hr].
  assert (Hl : lstrip_chars (rstrip_chars (a :: k)) = rstrip_chars (a :: k)).
  { rewrite Hr. cbn [lstrip_chars]. now rewrite Ha. }
  rewrite Hl. apply rstrip_idem.
Qed.

Lemma strip_length (l : list ascii) :
  (List.length (strip_chars l) <= List.length l)%nat.
Proof.
  unfold strip_chars. pose proof (rstrip_length (lstrip_chars l)).
  pose proof (lstrip_length l). lia.
Qed.

(** The shape of every cleaned text. *)
Lemma clean_chars_allowed (l : list ascii) :
  Forall (fun c => allowed_char c = true) (clean_chars l).
Proof.
  apply Forall_forall. intros x Hx. unfold clean_chars, strip_chars in Hx.
  apply rstrip_In, lstrip_In, sub_spaces_chars in Hx.
  destruct Hx as [->|[Hx Hs]]; [reflexivity|].
  unfold sub_special in Hx. apply filter_In in Hx as [Hx Hk].
  apply sub_url_In, in_map_iff in Hx as [y [<- _]].
  apply keep_allowed; auto using lower_char_not_upper.
Qed.

Lemma clean_chars_spaced (l : list ascii) : spaced false (clean_chars l) = true.
Proof.
  unfold clean_chars, strip_chars.
  apply rstrip_spaced, (lstrip_spaced false), sub_spaces_spaced.
Qed.

Lemma clean_chars_strip (l : list ascii) :
  strip_chars (clean_chars l) = clean_chars l.
Proof. unfold clean_chars. apply strip_idem. Qed.

Lemma clean_chars_length (l : list ascii) :
  (List.length (clean_chars l) <= List.length (sub_url false (map lower_char l)))%nat.
Proof.
  unfold clean_chars.
  pose proof (strip_length (sub_spaces false (sub_special (sub_url false (map lower_char l))))).
  pose proof (sub_spaces_length false (sub_special (sub_url false (map lower_char l)))).
  pose proof (filter_length_le keep_char (sub_url false (map lower_char l))).
  unfold sub_special in *. lia.
Qed.

Lemma map_lower_fixed (l : list ascii) :
  Forall (fun c => allowed_char c = true) l -> map lower_char l = l.
Proof.
  induction 1 as [|c l Hc Hl IH]; [reflexivity|].
  cbn [map]. now rewrite IH, allowed_lower_fixed.
Qed.

Lemma sub_special_fixed (l : list ascii) :
  Forall (fun c => allowed_char c = true) l -> sub_special l = l.
Proof.
  induction 1 as [|c l Hc Hl IH]; [reflexivity|].
  unfold sub_special in *. cbn [filter]. now rewrite (allowed_keep _ Hc), IH.
Qed.

(** Cleaning a cleaned text: the URL pass is the only one that can still
    act. *)
Lemma clean_chars_twice (l : list ascii) :
  clean_chars (clean_chars l) = clean_chars l <->
  has_url_chars (clean_chars l) = false.
Proof.
  pose proof (clean_chars_allowed l) as Ha.
  pose proof (clean_chars_spaced l) as Hs.
  pose proof (clean_chars_strip l) as Ht.
  set (r := clean_chars l) in *. split.
  - intros H. destruct (has_url_chars r) eqn:E; [|reflexivity].
    exfalso. pose proof (clean_chars_length r) as Hlen.
    rewrite (map_lower_fixed _ Ha) in Hlen.
    pose proof (sub_url_shrinks _ E). rewrite H in Hlen. lia.
  - intros H. unfold clean_chars at 1.
    rewrite (map_lower_fixed _ Ha), (sub_url_no_url _ H),
      (sub_special_fixed _ Ha), (sub_spaces_fixed _ _ Ha Hs).
    exact Ht.
Qed.

Lemma chars_snoc (s : string) (c : ascii) :
  chars (s ++ String c EmptyString) = (chars s ++ [c])%list.
Proof.
  induction s as [|a s IH]; [reflexivity|].
  cbn. f_equal. exact IH.
Qed.

Lemma spaced_no_double (b : bool) (l : list ascii) :
  spaced b l = true -> contains "  " (of_chars l) = false.
Proof.
  revert b; induction l as [|c l IH]; intros b H; [reflexivity|].
  cbn [spaced] in H.
  change (of_chars (c :: l)) with (String c (of_chars l)).
  cbn [contains]. apply orb_false_iff. split.
  - cbn [String.prefix]. destruct (ascii_dec " " c) as [<-|Hc]; [|reflexivity].
    cbn in H. apply andb_true_iff in H as [_ H].
    destruct l as [|d l]; [reflexivity|].
    change (of_chars (d :: l)) with (String d (of_chars l)).
    cbn [String.prefix]. destruct (ascii_dec " " d) as [<-|Hd]; [|reflexivity].
    cbn in H. discriminate.
  - destruct (Ascii.eqb c " ").
    + apply andb_true_iff in H as [_ H]. eauto.
    + eauto.
Qed.

(** ** [clean_text]: shape of the result and repeated cleaning *)

(** C10. [clean_text] returns a string for every value it is given
    (strings, integers, booleans, [None], NaN alike, each through
    [str]); the result holds only lowercase letters, digits and spaces,
    never two spaces in a row, and neither starts nor ends with a
    whitespace character. *)
Theorem clean_text_shape (text : PyValue) :
  exists r : string,
    clean_text text = r /\
    Forall (fun c => allowed_char c = true) (chars r) /\
    contains "  " r = false /\
    (forall c s, r = String c s -> isspace c = false) /\
    (forall s c, r = s ++ String c EmptyString -> isspace c = false).
Proof.
  exists (clean_text text). split; [reflexivity|].
  unfold clean_text. set (l := chars (py_str text)).
  repeat split.
  - rewrite chars_of_chars. apply clean_chars_allowed.
  - apply (spaced_no_double false), clean_chars_spaced.
  - intros c s H. apply (f_equal chars) in H. rewrite chars_of_chars in H.
    cbn in H. rewrite <- clean_chars_strip in H. eapply strip_head, H.
  - intros s c H. apply (f_equal chars) in H.
    rewrite chars_of_chars, chars_snoc in H.
    rewrite <- clean_chars_strip in H. unfold strip_chars in H.
    eapply rstrip_last, H.
Qed.

(** C4, as the code has it.  Cleaning a cleaned text changes nothing
    exactly when the cleaned text holds no [http] directly followed by a
    non-whitespace character: the URL pass runs before the pass that
    deletes punctuation, so a first cleaning can assemble such a token. *)
Theorem clean_text_twice (text : PyValue) :
  clean_text (VStr (clean_text text)) = clean_text text <->
  has_url (clean_text text) = false.
Proof.
  unfold clean_text, has_url. cbn [py_str]. rewrite !chars_of_chars.
  rewrite <- clean_chars_twice. split.
  - intros H. apply (f_equal chars) in H. now rewrite !chars_of_chars in H.
  - intros H. now rewrite H.
Qed.

Lemma clean_text_twice_witness :
  clean_text (VStr (clean_text (VStr "  Visit https://t.co/AbC now, PLEASE!!  OK? ")))
  = clean_text (VStr "  Visit https://t.co/AbC now, PLEASE!!  OK? ").
Proof.
  apply (proj2 (clean_text_twice (VStr "  Visit https://t.co/AbC now, PLEASE!!  OK? "))).
  vm_compute. reflexivity.
Defined.

(** C4, as stated, fails: punctuation inside [ht-tpx] hides the token
    from the URL pass of the first cleaning and not from the second. *)
Lemma clean_text_not_idempotent :
  clean_text (VStr "ht-tpx") = "httpx" /\
  clean_text (VStr (clean_text (VStr "ht-tpx"))) = EmptyString /\
  clean_text (VStr (clean_text (VStr "ht-tpx"))) <> clean_text (VStr "ht-tpx").
Proof. repeat split. vm_compute. discriminate. Qed.

Example clean_text_ex1 :
  clean_text (VStr "  Visit https://t.co/AbC now, PLEASE!!  OK? ") = "visit now please ok".
Proof. vm_compute. reflexivity. Qed.

Example clean_text_ex2 : clean_text VNaN = "nan".
Proof. reflexivity. Qed.

Example clean_text_ex3 : clean_text (VInt (-42)) = "42".
Proof. reflexivity. Qed.

(** ** Response Parser *)

(** C1. Whatever the continuation and the full output, [parse_response]
    returns normally, hands back the full output unchanged, and its label
    is the label of the first rule of [spec_rules] that matches, 0 when
    none does. *)
Theorem parse_response_first_match (generated_text full_output : string)
    (st : State) :
  exists st',
    parse_response generated_text full_output st =
      (Ok (first_match spec_rules 0 generated_text full_output, full_output), st')
    /\ predictions st' = predictions st /\ raw_outputs st' = raw_outputs st
    /\ files st' = files st.
Proof.
  unfold parse_response, spec_rules, first_match, tail50.
  do 6 (match goal with
        | |- context [if ?b then _ else _] =>
            destruct b; [eexists; repeat split; reflexivity|]
        end).
  eexists. repeat split; reflexivity.
Qed.

Example parse_rule1 (st : State) :
  fst (parse_response "1 is regional" "whatever 0" st) = Ok (1, "whatever 0").
Proof. reflexivity. Qed.

Example parse_rule3 (st : State) :
  fst (parse_response EmptyString "the answer is 0 because" st)
  = Ok (0, "the answer is 0 because").
Proof. reflexivity. Qed.

Example parse_rule4 (st : State) :
  fst (parse_response "this" "this shows no bias" st) = Ok (1, "this shows no bias").
Proof. reflexivity. Qed.

Example parse_rule5 (st : State) :
  fst (parse_response "unsure" "unsure" st) = Ok (0, "unsure").
Proof. reflexivity. Qed.

(** ** Dataset Loader *)





Section DatasetLoader.

Variable read_csv : string -> option (list RawRow).


End DatasetLoader.



Example load_datasets_missing_file (st : State) :
  fst (load_datasets demo_csv "nowhere.csv" "test.csv" None st)
  = Raise "Examples file not found: nowhere.csv".
Proof. reflexivity. Qed.

(** ** Ground-truth labels *)

Lemma binarized_geb (x : Z) : binarized x (if x >=? 1 then 1 else 0).
Proof.
  unfold binarized. rewrite Z.geb_leb.
  destruct (Z.leb_spec 1 x); split; intros; (reflexivity || lia).
Qed.

Lemma zip_rows_nth (c1 : list PyValue) (c2 : list string) (c3 c4 : list Z)
    (c5 : list string) (j : nat) (row : CkRow) :
  nth_error (zip_rows c1 c2 c3 c4 c5) j = Some row ->
  nth_error c1 j = Some (ck_Comment row) /\
  nth_error c2 j = Some (ck_Cleaned_Comment row) /\
  nth_error c3 j = Some (ck_True_Label row) /\
  nth_error c4 j = Some (ck_Predicted row) /\
  nth_error c5 j = Some (ck_Model_Output row).
Proof.
  revert c2 c3 c4 c5 j.
  induction c1 as [|a c1 IH]; intros [|b c2] [|c c3] [|d c4] [|e c5] j H;
    try (destruct j; discriminate).
  destruct j as [|j]; cbn in H.
  - inversion H; subst row. cbn. repeat split.
  - cbn. now apply IH.
Qed.

Lemma zip_rows_length (c1 : list PyValue) (c2 : list string) (c3 c4 : list Z)
    (c5 : list string) (n : nat) :
  List.length c1 = n -> List.length c2 = n -> List.length c3 = n ->
  List.length c4 = n -> List.length c5 = n ->
  List.length (zip_rows c1 c2 c3 c4 c5) = n.
Proof.
  revert c1 c2 c3 c4 c5.
  induction n as [|n IH]; intros [|a c1] [|b c2] [|c c3] [|d c4] [|e c5];
    cbn; try discriminate; try reflexivity.
  intros H1 H2 H3 H4 H5. f_equal. apply IH; congruence.
Qed.

(** What [save_checkpoint] writes when it does not raise. *)
Lemma save_checkpoint_Ok (test_df : list Row) (output_dir : option string)
    (i : nat) (st st' : State) :
  save_checkpoint test_df output_dir i st = (Ok tt, st') ->
  exists path rows,
    DataFrame (map Comment (firstn (i + 1) test_df))
              (map Cleaned_Comment (firstn (i + 1) test_df))
              (map (fun r => if Level_1 r >=? 1 then 1 else 0) (firstn (i + 1) test_df))
              (firstn (i + 1) (predictions st))
              (map (fun output => slice_to 500 output)
                   (firstn (i + 1) (raw_outputs st))) = Ok rows
    /\ files st' = (files st ++ [(path, rows)])%list
    /\ predictions st' = predictions st /\ raw_outputs st' = raw_outputs st.
Proof.
  unfold save_checkpoint, bind, get_predictions, get_raw_outputs, lift.
  destruct (DataFrame _ _ _ _ _) as [rows|e]; [|discriminate].
  cbn. intros H. inversion H; subst st'. cbn.
  eexists. exists rows. repeat split.
Qed.

(** C6. At the three places that derive a label from [Level-1], the
    label is 1 when the level is at least 1 and 0 otherwise: the
    classification printed in a few-shot example, the [True_Label] of
    each checkpoint row, the true labels of [save_results]. *)
Theorem level_binarized :
  (forall r : Row, exists label,
      binarized (Level_1 r) label /\
      example_lines r =
        "Comment: " ++ dq ++ Cleaned_Comment r ++ dq ++ nl
        ++ "Classification: " ++ str_of_Z label ++ nl ++ nl)
  /\ (forall (test_df : list Row) (output_dir : option string) (i : nat)
             (st st' : State),
        save_checkpoint test_df output_dir i st = (Ok tt, st') ->
        exists path rows,
          files st' = (files st ++ [(path, rows)])%list /\
          forall j row, nth_error rows j = Some row ->
            exists r, nth_error test_df j = Some r /\
                      binarized (Level_1 r) (ck_True_Label row))
  /\ (forall (test_df : list Row) (j : nat) (r : Row),
        nth_error test_df j = Some r ->
        exists label, nth_error (true_labels test_df) j = Some label /\
                      binarized (Level_1 r) label).
Proof.
  split; [|split].
  - intros r. exists (if Level_1 r >=? 1 then 1 else 0).
    split; [apply binarized_geb|reflexivity].
  - intros test_df output_dir i st st' H.
    apply save_checkpoint_Ok in H as [path [rows [Hdf [Hf _]]]].
    exists path, rows. split; [exact Hf|].
    intros j row Hrow. unfold DataFrame in Hdf.
    destruct (_ && _)%bool; [|discriminate]. inversion Hdf; subst rows.
    apply zip_rows_nth in Hrow as [_ [_ [H3 _]]].
    rewrite nth_error_map in H3.
    destruct (nth_error (firstn (i + 1) test_df) j) as [r|] eqn:E; [|discriminate].
    exists r. split.
    + rewrite nth_error_firstn in E. destruct (j <? i + 1)%nat; [exact E|discriminate].
    + cbn in H3. inversion H3. apply binarized_geb.
  - intros test_df j r H. exists (if Level_1 r >=? 1 then 1 else 0).
    split; [|apply binarized_geb].
    unfold true_labels. rewrite nth_error_map, H. reflexivity.
Qed.

Example example_lines_ex :
  example_lines (mkRow (VStr "Hi!") 3 "hi")
  = "Comment: " ++ dq ++ "hi" ++ dq ++ nl ++ "Classification: 1" ++ nl ++ nl.
Proof. reflexivity. Qed.

(** ** Prompt Builder *)

Lemma string_app_assoc (a b c : string) : (a ++ b) ++ c = a ++ (b ++ c).
Proof. induction a as [|x a IH]; [reflexivity|]. cbn. now rewrite IH. Qed.

Lemma prefix_app (a b : string) : String.prefix a (a ++ b) = true.
Proof.
  induction a as [|x a IH]; [now destruct b|].
  cbn. destruct (ascii_dec x x); [exact IH|congruence].
Qed.

Lemma fold_left_lines (rows : list Row) (init : string) :
  fold_left (fun prompt r => prompt ++ example_lines r) rows init
  = init ++ join (map example_lines rows).
Proof.
  revert init; induction rows as [|r rows IH]; intros init; cbn.
  - induction init as [|x init IHi]; [reflexivity|]. cbn. now rewrite <- IHi.
  - rewrite IH. apply string_app_assoc.
Qed.

Lemma take_all {A} (pre df : list A) :
  flat_map (fun i => match nth_error (pre ++ df) i with
                     | Some r => [r]
                     | None => []
                     end)
           (seq (List.length pre) (List.length df)) = df.
Proof.
  revert pre; induction df as [|a df IH]; intros pre; [reflexivity|].
  cbn [List.length seq flat_map].
  rewrite nth_error_app2, Nat.sub_diag by apply Nat.le_refl. cbn.
  f_equal. specialize (IH (pre ++ [a])%list).
  rewrite <- app_assoc, length_app, Nat.add_1_r in IH. exact IH.
Qed.

Section PromptBuilder.

Variable permutation : Z -> nat -> list nat.

(** What numpy promises of [permutation(n)]: the numbers below [n], each
    once. *)
Hypothesis permutation_ok :
  forall seed n, Permutation (permutation seed n) (seq 0 n).

Lemma sample_Permutation {A} (df : list A) (seed : Z) :
  Permutation (sample permutation df seed) df.
Proof.
  unfold sample.
  rewrite (Permutation_flat_map _ (permutation_ok seed (List.length df))).
  pose proof (take_all [] df) as H. cbn in H. now rewrite H.
Qed.

(** C7. For any examples, target comment and two seeds, each prompt is
    the instruction header, then a block of example line pairs, then the
    target block; header and target block are the same text in both
    prompts, and each block of pairs is a rearrangement of the pairs of
    all examples, so the two blocks hold the same pairs. *)
Theorem prompt_seeds (examples_df : list Row) (comment : string)
    (seed1 seed2 : Z) :
  exists pairs1 pairs2 : list string,
    create_few_shot_prompt permutation examples_df comment seed1
      = (instructions ++ "Examples:" ++ nl) ++ join pairs1 ++ target_block comment
    /\ create_few_shot_prompt permutation examples_df comment seed2
      = (instructions ++ "Examples:" ++ nl) ++ join pairs2 ++ target_block comment
    /\ Permutation pairs1 (map example_lines examples_df)
    /\ Permutation pairs2 (map example_lines examples_df)
    /\ Permutation pairs1 pairs2.
Proof.
  exists (map example_lines (sample permutation examples_df seed1)).
  exists (map example_lines (sample permutation examples_df seed2)).
  assert (P1 := sample_Permutation examples_df seed1).
  assert (P2 := sample_Permutation examples_df seed2).
  repeat split.
  - unfold create_few_shot_prompt. rewrite fold_left_lines.
    now rewrite string_app_assoc.
  - unfold create_few_shot_prompt. rewrite fold_left_lines.
    now rewrite string_app_assoc.
  - now apply Permutation_map.
  - now apply Permutation_map.
  - apply Permutation_map. now rewrite P1, P2.
Qed.

End PromptBuilder.

Lemma demo_permutation_ok (seed : Z) (n : nat) :
  Permutation (demo_permutation seed n) (seq 0 n).
Proof.
  unfold demo_permutation. destruct (Z.even seed); [reflexivity|].
  symmetry. apply Permutation_rev.
Qed.

Lemma prompt_seeds_witness :
  exists pairs1 pairs2 : list string,
    create_few_shot_prompt demo_permutation
        [mkRow (VStr "A!") 2 "a"; mkRow (VStr "B") 0 "b"] "c" 42
      = (instructions ++ "Examples:" ++ nl) ++ join pairs1 ++ target_block "c"
    /\ create_few_shot_prompt demo_permutation
        [mkRow (VStr "A!") 2 "a"; mkRow (VStr "B") 0 "b"] "c" 7
      = (instructions ++ "Examples:" ++ nl) ++ join pairs2 ++ target_block "c"
    /\ Permutation pairs1
         (map example_lines [mkRow (VStr "A!") 2 "a"; mkRow (VStr "B") 0 "b"])
    /\ Permutation pairs2
         (map example_lines [mkRow (VStr "A!") 2 "a"; mkRow (VStr "B") 0 "b"])
    /\ Permutation pairs1 pairs2.
Proof.
  exact (prompt_seeds demo_permutation demo_permutation_ok
           [mkRow (VStr "A!") 2 "a"; mkRow (VStr "B") 0 "b"] "c" 42 7).
Defined.

Example prompt_order_differs :
  create_few_shot_prompt demo_permutation
    [mkRow (VStr "A!") 2 "a"; mkRow (VStr "B") 0 "b"] "c" 42
  <> create_few_shot_prompt demo_permutation
    [mkRow (VStr "A!") 2 "a"; mkRow (VStr "B") 0 "b"] "c" 7.
Proof. vm_compute. discriminate. Qed.

(** ** The monad: sequencing and what survives *)

Lemma bind_Ok {A B} (m : M A) (k : A -> M B) (st st1 : State) (a : A) :
  m st = (Ok a, st1) -> bind m k st = k a st1.
Proof. intros H. unfold bind. now rewrite H. Qed.

Lemma bind_Raise {A B} (m : M A) (k : A -> M B) (st st1 : State) (e : string) :
  m st = (Raise e, st1) -> bind m k st = (Raise e, st1).
Proof. intros H. unfold bind. now rewrite H. Qed.

Lemma keeps_ret {A B} (proj : State -> B) (a : A) : keeps proj (ret a).
Proof. intros st. reflexivity. Qed.

Lemma keeps_raise {A B} (proj : State -> B) (e : string) :
  keeps proj (@raise A e).
Proof. intros st. reflexivity. Qed.

Lemma keeps_lift {A B} (proj : State -> B) (o : outcome A) : keeps proj (lift o).
Proof. intros st. reflexivity. Qed.

Lemma keeps_bind {A B C} (proj : State -> C) (m : M A) (k : A -> M B) :
  keeps proj m -> (forall a, keeps proj (k a)) -> keeps proj (bind m k).
Proof.
  intros Hm Hk st. unfold bind. specialize (Hm st).
  destruct (m st) as [[a|e] st1]; cbn in Hm |- *; [|exact Hm].
  now rewrite (Hk a st1).
Qed.

Lemma keeps_try {A C} (proj : State -> C) (body : M A) (handler : string -> M A) :
  keeps proj body -> (forall e, keeps proj (handler e)) ->
  keeps proj (try_except body handler).
Proof.
  intros Hb Hh st. unfold try_except. specialize (Hb st).
  destruct (body st) as [[a|e] st1]; cbn in Hb |- *; [exact Hb|].
  now rewrite (Hh e st1).
Qed.

Ltac keeps_step :=
  first
    [ apply keeps_ret | apply keeps_raise | apply keeps_lift
    | apply keeps_bind; [|intros ?]
    | apply keeps_try; [|intros ?]
    | match goal with
      | |- keeps _ (if ?b then _ else _) => destruct b
      | |- keeps _ (match ?o with Ok _ => _ | Raise _ => _ end) => destruct o
      end
    | (intros ?; reflexivity) ].

Ltac keeps_all := repeat keeps_step.

Lemma parse_response_fst (g f : string) (st : State) :
  fst (parse_response g f st) = Ok (first_match spec_rules 0 g f, f).
Proof.
  unfold parse_response, spec_rules, first_match, tail50.
  repeat match goal with
         | |- context [if ?b then _ else _] => destruct b; [reflexivity|]
         end.
  reflexivity.
Qed.

Lemma parse_response_keeps {B} (proj : State -> B) (g f : string) :
  (forall st lv msg, proj (snd (logger lv msg st)) = proj st) ->
  keeps proj (parse_response g f).
Proof.
  intros Hlog. unfold parse_response.
  repeat match goal with
         | |- keeps _ (if ?b then _ else _) => destruct b; [apply keeps_ret|]
         end.
  apply keeps_bind; [intros st; apply Hlog|intros; apply keeps_ret].
Qed.

Section ModelRunner.

Variable generate : string -> Z -> outcome string.

Lemma predict_with_model_keeps {B} (proj : State -> B) (prompt : string)
    (max_length : Z) :
  (forall st lv msg, proj (snd (logger lv msg st)) = proj st) ->
  keeps proj (predict_with_model generate prompt max_length).
Proof.
  intros Hlog. unfold predict_with_model.
  apply keeps_try.
  - apply keeps_bind; [apply keeps_lift|intros out].
    now apply parse_response_keeps.
  - intros e. apply keeps_bind; [intros st; apply Hlog|intros; apply keeps_ret].
Qed.

(** The Model Runner never raises: a failure of generation comes back as
    label 0 with the error text. *)
Lemma predict_with_model_fst (prompt : string) (max_length : Z) (st : State) :
  fst (predict_with_model generate prompt max_length st)
  = Ok (model_entry generate max_length prompt).
Proof.
  unfold predict_with_model, model_entry, try_except, bind, lift, continuation.
  destruct (generate prompt max_length) as [out|e]; [|reflexivity].
  pose proof (parse_response_fst
    (if startswith out prompt
     then strip (slice_from (String.length prompt) out)
     else strip (slice_last 50 out)) out st) as H.
  destruct (parse_response _ out st) as [[a|e] st1]; cbn in H |- *.
  - exact H.
  - discriminate.
Qed.

End ModelRunner.

(** ** Batch Driver *)

Lemma zip_rows_maps {X} (f1 : X -> PyValue) (f2 : X -> string) (f3 f4 : X -> Z)
    (f5 : X -> string) (L : list X) :
  zip_rows (map f1 L) (map f2 L) (map f3 L) (map f4 L) (map f5 L)
  = map (fun x => mkCkRow (f1 x) (f2 x) (f3 x) (f4 x) (f5 x)) L.
Proof. induction L as [|x L IH]; [reflexivity|]. cbn. now rewrite IH. Qed.

Lemma DataFrame_maps {X} (f1 : X -> PyValue) (f2 : X -> string) (f3 f4 : X -> Z)
    (f5 : X -> string) (L : list X) :
  DataFrame (map f1 L) (map f2 L) (map f3 L) (map f4 L) (map f5 L)
  = Ok (map (fun x => mkCkRow (f1 x) (f2 x) (f3 x) (f4 x) (f5 x)) L).
Proof.
  unfold DataFrame. rewrite !length_map, Nat.eqb_refl. cbn.
  now rewrite zip_rows_maps.
Qed.

Lemma skipn_step {A} (l : list A) (i : nat) (c : A) (cs : list A) :
  skipn i l = c :: cs ->
  skipn (S i) l = cs /\ firstn (S i) l = (firstn i l ++ [c])%list
  /\ nth_error l i = Some c /\ (i < List.length l)%nat.
Proof.
  revert l; induction i as [|i IH]; intros [|a l] H; try discriminate.
  - cbn in H. inversion H; subst. cbn. repeat split. lia.
  - cbn in H. destruct (IH l H) as [H1 [H2 [H3 H4]]].
    repeat split.
    + exact H1.
    + change (firstn (S (S i)) (a :: l)) with (a :: firstn (S i) l).
      now rewrite H2.
    + exact H3.
    + cbn. lia.
Qed.

Lemma nth_error_nth_default {A} (l : list A) (i : nat) (c d : A) :
  nth_error l i = Some c -> nth i l d = c.
Proof.
  revert i; induction l as [|a l IH]; intros [|i] H; try discriminate.
  - now inversion H.
  - cbn in *. auto.
Qed.

Section BatchDriver.

Variable permutation : Z -> nat -> list nat.
Variable count_tokens : string -> outcome Z.
Variable generate : string -> Z -> outcome string.
Variables (test_df examples_df : list Row).
Variables (max_length random_seed checkpoint_interval : Z).
Variable output_dir : option string.

Local Abbreviation tc := (test_comments test_df).
Local Abbreviation fullp := (full_prompt permutation examples_df random_seed).
Local Abbreviation entry :=
  (record_entry permutation count_tokens generate examples_df max_length random_seed).
Local Abbreviation entries :=
  (entries_of permutation count_tokens generate examples_df max_length
              random_seed checkpoint_interval output_dir).
Local Abbreviation is_counted :=
  (counted permutation count_tokens examples_df random_seed).
Local Abbreviation written :=
  (checkpoint_written permutation count_tokens test_df examples_df
                      random_seed checkpoint_interval output_dir).
Local Abbreviation ckfile :=
  (checkpoint_file permutation count_tokens generate test_df examples_df
                   max_length random_seed output_dir).
Local Abbreviation choose :=
  (choose_prompt permutation count_tokens examples_df max_length random_seed).
Local Abbreviation finish :=
  (finish_record generate test_df max_length checkpoint_interval output_dir).
Local Abbreviation process :=
  (process_record permutation count_tokens generate test_df examples_df
                  max_length random_seed checkpoint_interval output_dir).
Local Abbreviation body :=
  (loop_body permutation count_tokens generate test_df examples_df
             max_length random_seed checkpoint_interval output_dir).
Local Abbreviation ckstep := (checkpoint_step test_df checkpoint_interval output_dir).

Lemma choose_prompt_Ok (comment : string) (n : Z) (st : State) :
  count_tokens (fullp comment) = Ok n ->
  exists st1,
    choose comment st
      = (Ok (prompt_for permutation examples_df max_length random_seed n comment), st1)
    /\ predictions st1 = predictions st /\ raw_outputs st1 = raw_outputs st
    /\ files st1 = files st.
Proof.
  intros H. unfold choose_prompt, prompt_for, full_prompt in *.
  unfold bind, lift. rewrite H.
  destruct (n >? max_length); eexists; repeat split.
Qed.

Lemma choose_prompt_Raise (comment e : string) (st : State) :
  count_tokens (fullp comment) = Raise e ->
  choose comment st = (Raise e, st).
Proof.
  intros H. unfold choose_prompt, full_prompt in *.
  unfold bind, lift. now rewrite H.
Qed.

Lemma log_progress_Ok (i : nat) (p : Z) (st : State) :
  exists st1,
    log_progress test_df i p st = (Ok tt, st1)
    /\ predictions st1 = predictions st /\ raw_outputs st1 = raw_outputs st
    /\ files st1 = files st.
Proof.
  unfold log_progress. destruct (_ || _)%bool; eexists; repeat split.
Qed.

Lemma save_checkpoint_keeps {B} (proj : State -> B) (i : nat) :
  (forall st lv msg, proj (snd (logger lv msg st)) = proj st) ->
  (forall st path rows, proj (snd (to_csv path rows st)) = proj st) ->
  keeps proj (save_checkpoint test_df output_dir i).
Proof.
  intros Hlog Hcsv. unfold save_checkpoint.
  apply keeps_bind; [intros st; reflexivity|intros preds].
  apply keeps_bind; [intros st; reflexivity|intros raws].
  apply keeps_bind; [apply keeps_lift|intros df].
  apply keeps_bind; [intros st; apply Hcsv|intros _].
  intros st. apply Hlog.
Qed.

Lemma checkpoint_step_keeps {B} (proj : State -> B) (i : nat) :
  (forall st lv msg, proj (snd (logger lv msg st)) = proj st) ->
  (forall st path rows, proj (snd (to_csv path rows st)) = proj st) ->
  keeps proj (ckstep i).
Proof.
  intros Hlog Hcsv. unfold checkpoint_step.
  apply keeps_bind.
  - destruct (truthy output_dir); [|apply keeps_ret].
    apply keeps_bind; [apply keeps_lift|intros; apply keeps_ret].
  - intros [|]; [now apply save_checkpoint_keeps|apply keeps_ret].
Qed.

(** Up to its checkpoint step, [finish_record] stores the Model Runner's
    answer and nothing else. *)
Lemma finish_record_split (i : nat) (prompt : string) (st : State) :
  exists st4,
    finish i prompt st = ckstep i st4
    /\ predictions st4
       = (predictions st ++ [fst (model_entry generate max_length prompt)])%list
    /\ raw_outputs st4
       = (raw_outputs st ++ [snd (model_entry generate max_length prompt)])%list
    /\ files st4 = files st.
Proof.
  unfold finish_record, bind.
  pose proof (predict_with_model_fst generate prompt max_length st) as Hf.
  pose proof (predict_with_model_keeps generate predictions prompt max_length
                (fun _ _ _ => eq_refl) st) as Hp.
  pose proof (predict_with_model_keeps generate raw_outputs prompt max_length
                (fun _ _ _ => eq_refl) st) as Hr.
  pose proof (predict_with_model_keeps generate files prompt max_length
                (fun _ _ _ => eq_refl) st) as Hfi.
  destruct (predict_with_model generate prompt max_length st) as [o st2].
  cbn in Hf, Hp, Hr, Hfi. subst o.
  cbn [predictions_append raw_outputs_append fst snd
       predictions raw_outputs log files].
  match goal with
  | |- context [log_progress test_df i ?p ?s] =>
      destruct (log_progress_Ok i p s) as [st4 [E [H1 [H2 H3]]]]; rewrite E
  end.
  exists st4. split; [reflexivity|].
  cbn in H1, H2, H3. rewrite H1, H2, H3, Hp, Hr, Hfi. repeat split.
Qed.

Lemma due_eq (i : nat) :
  (((Z.of_nat i + 1) mod checkpoint_interval =? 0)
   || (Z.of_nat i =? len tc - 1))%bool
  = checkpoint_due test_df checkpoint_interval (i + 1).
Proof.
  unfold checkpoint_due, len, test_comments. rewrite length_map.
  replace (Z.of_nat (i + 1)) with (Z.of_nat i + 1) by lia.
  f_equal.
  destruct (Z.eqb_spec (Z.of_nat i) (Z.of_nat (List.length test_df) - 1));
    destruct (Nat.eqb_spec (i + 1) (List.length test_df)); try reflexivity; lia.
Qed.

Lemma ckstep_off (i : nat) (st : State) :
  truthy output_dir = false -> ckstep i st = (Ok tt, st).
Proof. intros H. unfold checkpoint_step, bind. now rewrite H. Qed.

Lemma ckstep_zero (i : nat) (st : State) :
  truthy output_dir = true -> checkpoint_interval = 0 ->
  ckstep i st = (Raise ZeroDivisionError_msg, st).
Proof.
  intros H ->. unfold checkpoint_step, bind, lift, py_mod. now rewrite H.
Qed.

Lemma ckstep_not_due (i : nat) (st : State) :
  truthy output_dir = true -> checkpoint_interval <> 0 ->
  checkpoint_due test_df checkpoint_interval (i + 1) = false ->
  ckstep i st = (Ok tt, st).
Proof.
  intros H Hk Hd. unfold checkpoint_step, bind, lift, py_mod. rewrite H.
  apply Z.eqb_neq in Hk. rewrite Hk. cbn [ret].
  now rewrite due_eq, Hd.
Qed.

Lemma ckstep_due (i : nat) (st : State) :
  truthy output_dir = true -> checkpoint_interval <> 0 ->
  checkpoint_due test_df checkpoint_interval (i + 1) = true ->
  predictions st
    = map (fun r => fst (entry (Cleaned_Comment r))) (firstn (i + 1) test_df) ->
  raw_outputs st
    = map (fun r => snd (entry (Cleaned_Comment r))) (firstn (i + 1) test_df) ->
  exists st',
    ckstep i st = (Ok tt, st')
    /\ files st' = (files st ++ [ckfile (i + 1)])%list
    /\ predictions st' = predictions st /\ raw_outputs st' = raw_outputs st.
Proof.
  intros H Hk Hd Hp Hr. unfold checkpoint_step, bind, lift, py_mod. rewrite H.
  apply Z.eqb_neq in Hk. rewrite Hk. cbn [ret].
  rewrite due_eq, Hd.
  unfold save_checkpoint, bind, get_predictions, get_raw_outputs, lift.
  rewrite Hp, Hr.
  set (L := firstn (i + 1) test_df).
  assert (HL : forall {X} (f : Row -> X), firstn (i + 1) (map f L) = map f L).
  { intros X f. apply firstn_all2. rewrite length_map. apply firstn_le_length. }
  rewrite !HL, map_map, DataFrame_maps.
  unfold to_csv, logger. cbv beta iota zeta.
  eexists. split; [reflexivity|]. cbn [files predictions raw_outputs].
  repeat split; try assumption.
  unfold checkpoint_file, checkpoint_path. fold L. do 3 f_equal.
  apply map_ext. intros r. unfold expected_row. now rewrite Z.geb_leb.
Qed.

Lemma firstn_S_nth {A} (l : list A) (i : nat) (c : A) :
  nth_error l i = Some c -> firstn (S i) l = (firstn i l ++ [c])%list.
Proof.
  revert i; induction l as [|a l IH]; intros [|i] H; try discriminate.
  - now inversion H.
  - cbn in H. change (firstn (S (S i)) (a :: l)) with (a :: firstn (S i) l).
    now rewrite (IH i H).
Qed.

Lemma entries_plain (l : list string) :
  modulo_raises checkpoint_interval output_dir = false ->
  flat_map entries l = map entry l.
Proof.
  intros H. induction l as [|c l IH]; [reflexivity|].
  cbn [flat_map map]. rewrite IH. unfold entries_of at 1. now rewrite H.
Qed.

Lemma rows_so_far {X} (g : string -> X) (i : nat) (c : string) :
  nth_error tc i = Some c ->
  map (fun r => g (Cleaned_Comment r)) (firstn (i + 1) test_df)
  = (map g (firstn i tc) ++ [g c])%list.
Proof.
  intros Hc. rewrite <- (map_map Cleaned_Comment g), <- firstn_map, Nat.add_1_r.
  change (map Cleaned_Comment test_df) with tc.
  now rewrite (firstn_S_nth _ _ _ Hc), map_app.
Qed.

(** One turn of the loop: it never raises, it appends the entries of
    its record, and it writes the checkpoint of its record count when
    that one is written. *)
Lemma loop_body_step (i : nat) (c : string) (st : State) :
  nth_error tc i = Some c ->
  predictions st = map fst (flat_map entries (firstn i tc)) ->
  raw_outputs st = map snd (flat_map entries (firstn i tc)) ->
  exists st',
    body i c st = (Ok tt, st')
    /\ predictions st' = (predictions st ++ map fst (entries c))%list
    /\ raw_outputs st' = (raw_outputs st ++ map snd (entries c))%list
    /\ files st'
       = (files st ++ if written (i + 1) then [ckfile (i + 1)] else [])%list.
Proof.
  intros Hc Hp Hr.
  assert (Hnth : nth (i + 1 - 1) tc EmptyString = c).
  { replace (i + 1 - 1)%nat with i by lia. now apply nth_error_nth_default. }
  unfold loop_body, try_except, process_record.
  unfold checkpoint_written, entries_of. rewrite Hnth.
  destruct (count_tokens (fullp c)) as [n|e] eqn:Ec.
  - assert (He : entry c = model_entry generate max_length
                   (prompt_for permutation examples_df max_length random_seed n c)).
    { unfold record_entry. now rewrite Ec. }
    assert (Hcnt : is_counted c = true).
    { unfold counted. now rewrite Ec. }
    rewrite Hcnt, !andb_true_r.
    destruct (choose_prompt_Ok c n st Ec) as [st1 [E1 [P1 [R1 F1]]]].
    rewrite (bind_Ok _ _ _ _ _ E1).
    destruct (finish_record_split i
                (prompt_for permutation examples_df max_length random_seed n c) st1)
      as [st4 [E4 [P4 [R4 F4]]]].
    rewrite E4. rewrite P1, <- He in P4. rewrite R1, <- He in R4.
    rewrite F1 in F4.
    unfold modulo_raises.
    destruct (truthy output_dir) eqn:Et.
    + destruct (Z.eqb_spec checkpoint_interval 0) as [Hk|Hk].
      * rewrite (ckstep_zero i st4 Et Hk). cbn.
        eexists. split; [reflexivity|]. cbn. rewrite P4, R4, F4.
        rewrite <- !app_assoc, app_nil_r. repeat split.
      * cbn [andb negb].
        destruct (checkpoint_due test_df checkpoint_interval (i + 1)) eqn:Ed.
        -- assert (Hm : modulo_raises checkpoint_interval output_dir = false).
           { unfold modulo_raises. rewrite Et. cbn. now apply Z.eqb_neq. }
           destruct (ckstep_due i st4 Et Hk Ed) as [st5 [E5 [F5 [P5 R5]]]].
           { rewrite P4, Hp, (entries_plain _ Hm), map_map.
             symmetry. now apply (rows_so_far (fun c => fst (entry c))). }
           { rewrite R4, Hr, (entries_plain _ Hm), map_map.
             symmetry. now apply (rows_so_far (fun c => snd (entry c))). }
           rewrite E5. exists st5. split; [reflexivity|].
           rewrite P5, R5, F5, P4, R4, F4. repeat split.
        -- rewrite (ckstep_not_due i st4 Et Hk Ed).
           exists st4. split; [reflexivity|].
           rewrite P4, R4, F4, app_nil_r. repeat split.
    + rewrite (ckstep_off i st4 Et). cbn [andb].
      exists st4. split; [reflexivity|].
      rewrite P4, R4, F4, app_nil_r. repeat split.
  - assert (He : entry c = (0, "ERROR: " ++ e)).
    { unfold record_entry. now rewrite Ec. }
    assert (Hcnt : is_counted c = false).
    { unfold counted. now rewrite Ec. }
    rewrite Hcnt, !andb_false_r, He.
    rewrite (bind_Raise _ _ _ _ _ (choose_prompt_Raise c e st Ec)).
    cbn.
    eexists. split; [reflexivity|]. cbn. rewrite app_nil_r. repeat split.
Qed.

(** The whole loop, from any record on. *)
Lemma for_each_run (cs : list string) :
  forall (i : nat) (st : State),
    skipn i tc = cs ->
    predictions st = map fst (flat_map entries (firstn i tc)) ->
    raw_outputs st = map snd (flat_map entries (firstn i tc)) ->
    exists st',
      for_each body i cs st = (Ok tt, st')
      /\ predictions st' = map fst (flat_map entries tc)
      /\ raw_outputs st' = map snd (flat_map entries tc)
      /\ files st'
         = (files st
            ++ map ckfile (filter written (seq (i + 1) (List.length cs))))%list.
Proof.
  induction cs as [|c cs IH]; intros i st Hs Hp Hr.
  - exists st. pose proof (firstn_skipn i tc) as H.
    rewrite Hs, app_nil_r in H. rewrite H in Hp, Hr.
    cbn. rewrite app_nil_r. repeat split; assumption.
  - destruct (skipn_step _ _ _ _ Hs) as [Hs' [Hf [Hc _]]].
    destruct (loop_body_step i c st Hc Hp Hr) as [st1 [E1 [P1 [R1 F1]]]].
    destruct (IH (S i) st1 Hs') as [st' [E [P [R F]]]].
    + rewrite P1, Hp, Hf, flat_map_app, !map_app. cbn [flat_map].
      now rewrite app_nil_r.
    + rewrite R1, Hr, Hf, flat_map_app, !map_app. cbn [flat_map].
      now rewrite app_nil_r.
    + exists st'. cbn [for_each]. rewrite (bind_Ok _ _ _ _ _ E1).
      split; [exact E|]. split; [exact P|]. split; [exact R|].
      rewrite F, F1, <- app_assoc. f_equal.
      cbn [List.length seq filter]. replace (S i + 1)%nat with (S (i + 1)) by lia.
      now destruct (written (i + 1)).
Qed.

(** [batch_predict] on any input: it returns, its two lists are the
    entries of the records in order, and it has written the checkpoints
    that are written. *)
Lemma batch_predict_run (st : State) :
  exists st',
    batch_predict permutation count_tokens generate test_df examples_df
                  max_length random_seed checkpoint_interval output_dir st
    = (Ok (map fst (flat_map entries tc), map snd (flat_map entries tc)), st')
    /\ files st'
       = (files st
          ++ map ckfile (filter written (seq 1 (List.length test_df))))%list.
Proof.
  unfold batch_predict.
  set (st1 := mkState [] [] (log st) (files st)).
  assert (exists st2, (if truthy output_dir
                       then logger INFO ("Directory created/verified: "
                              ++ path_join (dir_of output_dir) "checkpoints")
                       else ret tt) st1 = (Ok tt, st2)
                      /\ predictions st2 = [] /\ raw_outputs st2 = []
                      /\ files st2 = files st) as [st2 [E2 [P2 [R2 F2]]]].
  { destruct (truthy output_dir); eexists; repeat split. }
  destruct (for_each_run tc 0 st2 eq_refl) as [st' [E [P [R F]]]];
    [now rewrite P2|now rewrite R2|].
  exists st'. split.
  - unfold bind at 1. cbv beta iota. fold st1.
    rewrite (bind_Ok _ _ _ _ _ E2), (bind_Ok _ _ _ _ _ E).
    unfold bind, get_predictions, get_raw_outputs, ret. cbv beta iota.
    now rewrite P, R.
  - rewrite F, F2. unfold test_comments. now rewrite length_map.
Qed.

Lemma entries_length_ge (l : list string) :
  (List.length l <= List.length (flat_map entries l))%nat.
Proof.
  induction l as [|c l IH]; [apply Nat.le_refl|].
  cbn [flat_map]. rewrite length_app. unfold entries_of at 1.
  cbn [List.length]. lia.
Qed.

Lemma raised_entry (c msg : string) :
  record_raises permutation count_tokens generate examples_df max_length
                random_seed c msg ->
  entry c = (0, "ERROR: " ++ msg).
Proof.
  unfold record_raises, record_entry, model_entry.
  intros [H|[n [H1 H2]]]; [now rewrite H|now rewrite H1, H2].
Qed.

Lemma first_match_binary (g f : string) :
  first_match spec_rules 0 g f = 0 \/ first_match spec_rules 0 g f = 1.
Proof.
  unfold first_match, spec_rules.
  repeat match goal with
         | |- context [if ?b then _ else _] => destruct b; [auto|]
         end.
  auto.
Qed.



(** C8. When the full few-shot prompt counts [n] tokens, the record is
    finished with one of two prompts and no other: the simplified
    template when [n] exceeds [max_length], the full prompt unchanged
    otherwise.  The simplified template is the instructions, a fixed
    sentence and the target comment; no example enters it.  The label
    and raw output stored are the Model Runner's answer on that prompt. *)
Theorem prompt_fallback (i : nat) (comment : string) (n : Z) (st : State) :
  count_tokens (fullp comment) = Ok n ->
  exists (chosen : string) (st1 st4 : State),
    choose comment st = (Ok chosen, st1)
    /\ process i comment st = finish i chosen st1
    /\ finish i chosen st1 = ckstep i st4
    /\ predictions st4
       = (predictions st ++ [fst (model_entry generate max_length chosen)])%list
    /\ raw_outputs st4
       = (raw_outputs st ++ [snd (model_entry generate max_length chosen)])%list
    /\ (n > max_length ->
        chosen = simplified_prompt comment
        /\ chosen = instructions
             ++ "Examples are provided separately. Based on these instructions:"
             ++ nl ++ nl
             ++ "Classify this comment:" ++ nl ++ dq ++ comment ++ dq ++ nl
             ++ "Classification:"
        /\ startswith chosen instructions = true)
    /\ (n <= max_length ->
        chosen = create_few_shot_prompt permutation examples_df comment random_seed).
Proof.
  intros Hn.
  destruct (choose_prompt_Ok comment n st Hn) as [st1 [E1 [P1 [R1 F1]]]].
  set (chosen := prompt_for permutation examples_df max_length random_seed n comment)
    in *.
  destruct (finish_record_split i chosen st1) as [st4 [E4 [P4 [R4 F4]]]].
  exists chosen, st1, st4.
  split; [exact E1|].
  split; [unfold process_record; now rewrite (bind_Ok _ _ _ _ _ E1)|].
  split; [exact E4|].
  split; [now rewrite P4, P1|].
  split; [now rewrite R4, R1|].
  unfold chosen, prompt_for. split.
  - intros H. apply Z.gtb_gt in H. rewrite H.
    split; [reflexivity|]. split; [reflexivity|].
    unfold startswith, simplified_prompt. apply prefix_app.
  - intros H. destruct (n >? max_length) eqn:E; [|reflexivity].
    apply Z.gtb_gt in E. lia.
Qed.

Lemma skipn_nth {A} (l : list A) (i : nat) (c : A) :
  nth_error l i = Some c -> skipn i l = c :: skipn (S i) l.
Proof.
  revert i; induction l as [|a l IH]; intros [|i] H; try discriminate.
  - now inversion H.
  - cbn in H. exact (IH i H).
Qed.

(** C2. A record whose token counting or generation raises [msg] does
    not stop the run: [batch_predict] returns, and its result lists hold
    label 0 and the error text, "ERROR: " followed by [msg], for that
    record, after the entries of the records before it and before the
    entries of every record after it.  Where the modulo of the
    checkpoint test is defined the entry stands at the record's own
    index. *)
Theorem failed_record_defaults (st : State) (i : nat) (c msg : string) :
  nth_error tc i = Some c ->
  record_raises permutation count_tokens generate examples_df max_length
                random_seed c msg ->
  exists (pre post extra : list (Z * string)) (st' : State),
    batch_predict permutation count_tokens generate test_df examples_df
                  max_length random_seed checkpoint_interval output_dir st
    = (Ok (map fst (pre ++ (0, "ERROR: " ++ msg) :: post),
           map snd (pre ++ (0, "ERROR: " ++ msg) :: post)), st')
    /\ pre = flat_map entries (firstn i tc)
    /\ post = (extra ++ flat_map entries (skipn (S i) tc))%list
    /\ (List.length extra <= 1)%nat
    /\ (i <= List.length pre)%nat
    /\ (List.length tc - S i <= List.length post)%nat
    /\ (modulo_raises checkpoint_interval output_dir = false ->
        List.length pre = i /\ List.length post = (List.length tc - S i)%nat).
Proof.
  intros Hc Hraise.
  destruct (batch_predict_run st) as [st' [E _]].
  assert (Hi : (i < List.length tc)%nat).
  { apply nth_error_Some. congruence. }
  assert (Hsplit : tc = (firstn i tc ++ c :: skipn (S i) tc)%list).
  { rewrite <- (skipn_nth _ _ _ Hc). symmetry. apply firstn_skipn. }
  set (extra := if (modulo_raises checkpoint_interval output_dir && is_counted c)%bool
                then [(0, "ERROR: " ++ ZeroDivisionError_msg)] else []).
  exists (flat_map entries (firstn i tc)),
         (extra ++ flat_map entries (skipn (S i) tc))%list, extra, st'.
  assert (Hflat : flat_map entries tc
                  = (flat_map entries (firstn i tc)
                     ++ (0, ("ERROR: " ++ msg)%string)
                        :: extra ++ flat_map entries (skipn (S i) tc))%list).
  { rewrite Hsplit at 1. rewrite flat_map_app. cbn [flat_map]. f_equal.
    change (entries c) with (entry c :: extra).
    now rewrite (raised_entry c msg Hraise). }
  split; [now rewrite E, Hflat|].
  split; [reflexivity|]. split; [reflexivity|].
  pose proof (entries_length_ge (firstn i tc)) as Hpre.
  pose proof (entries_length_ge (skipn (S i) tc)) as Hpost.
  rewrite length_firstn in Hpre. rewrite length_skipn in Hpost.
  split; [unfold extra; destruct (_ && _)%bool; cbn; lia|].
  split; [lia|]. split; [rewrite length_app; lia|].
  intros Hm. rewrite !(entries_plain _ Hm), length_app, !length_map.
  rewrite length_firstn, length_skipn. unfold extra. rewrite Hm. cbn. lia.
Qed.

Lemma combine_maps {X Y W} (f : X -> Y) (g : X -> W) (l : list X) :
  combine l (combine (map f l) (map g l)) = map (fun x => (x, (f x, g x))) l.
Proof. induction l as [|x l IH]; [reflexivity|]. cbn. now rewrite IH. Qed.



End BatchDriver.

(** ** The Batch Driver on small runs *)

Lemma failed_record_defaults_witness :
  exists (pre post : list (Z * string)) (st' : State),
    demo_run demo_tests 4096 10 (Some "out")
    = (Ok (map fst (pre ++ (0, "ERROR: tokenizer failed") :: post),
           map snd (pre ++ (0, "ERROR: tokenizer failed") :: post)), st')
    /\ List.length pre = 1%nat /\ List.length post = 1%nat.
Proof.
  destruct (failed_record_defaults demo_permutation demo_count demo_generate
              demo_tests demo_examples 4096 42 10 (Some "out") st0
              1 "boom" "tokenizer failed")
    as [pre [post [extra [st' [E [_ [_ [_ [_ [_ H]]]]]]]]]].
  - reflexivity.
  - left. vm_compute. reflexivity.
  - exists pre, post, st'. split; [exact E|]. apply H. reflexivity.
Defined.

(** The error text recorded for a failed record is the exception's
    message behind the prefix "ERROR: ". *)
Example raw_output_is_prefixed_error :
  demo_count (full_prompt demo_permutation demo_examples 42 "boom")
    = Raise "tokenizer failed"
  /\ (exists preds raws st',
        demo_run demo_tests 4096 10 (Some "out") = (Ok (preds, raws), st')
        /\ nth_error preds 1 = Some 0
        /\ nth_error raws 1 = Some "ERROR: tokenizer failed"
        /\ nth_error raws 1 <> Some "tokenizer failed").
Proof.
  split; [vm_compute; reflexivity|].
  do 3 eexists. split; [vm_compute; reflexivity|].
  repeat split. discriminate.
Qed.

Example generation_failure_defaults :
  fst (demo_run demo_tests 4096 10 (Some "out"))
  = Ok ([1; 0; 0],
        [full_prompt demo_permutation demo_examples 42 "fine" ++ " 1";
         "ERROR: tokenizer failed"; "ERROR: CUDA out of memory"]).
Proof. vm_compute. reflexivity. Qed.


Example checkpoint_paths :
  checkpoint_path (Some "out") 3
  = "out/checkpoints/deepseek_7b_150examples_checkpoint_3.csv".
Proof. reflexivity. Qed.


Lemma prompt_fallback_witness :
  exists (chosen : string) (st1 : State),
    choose_prompt demo_permutation demo_count demo_examples 100 42 "fine" st0
    = (Ok chosen, st1)
    /\ chosen = simplified_prompt "fine".
Proof.
  destruct (prompt_fallback demo_permutation demo_count demo_generate
              demo_tests demo_examples 100 42 10 (Some "out") 0 "fine"
              (Z.of_nat (String.length
                 (full_prompt demo_permutation demo_examples 42 "fine"))) st0)
    as [chosen [st1 [st4 [E [_ [_ [_ [_ [H _]]]]]]]]].
  - vm_compute. reflexivity.
  - exists chosen, st1. split; [exact E|]. apply H. vm_compute. reflexivity.
Defined.

Example simplified_prompt_lengths :
  (String.length (create_few_shot_prompt demo_permutation [] "fine" 42)
   < String.length (simplified_prompt "fine")
   < String.length (create_few_shot_prompt demo_permutation demo_examples "fine" 42))%nat.
Proof. vm_compute. lia. Qed.

Example prompt_kept_when_short :
  fst (choose_prompt demo_permutation demo_count demo_examples 4096 42 "fine" st0)
  = Ok (create_few_shot_prompt demo_permutation demo_examples "fine" 42).
Proof. vm_compute. reflexivity. Qed.

(** C9 on the code: with an output directory and checkpoint interval 0
    the modulo of the checkpoint test raises after the record's result
    is stored, the [except] branch stores a second entry, and the lists
    returned for one test record hold two entries; [save_results] then
    cannot attach them to the test frame. *)
Theorem zero_interval_doubles_entries :
  exists (raw : string) (st' : State),
    demo_run [mkRow (VStr "Fine.") 0 "fine"] 4096 0 (Some "out")
    = (Ok ([1; 0], [raw; "ERROR: " ++ ZeroDivisionError_msg]), st')
    /\ assign_column [mkRow (VStr "Fine.") 0 "fine"] [1; 0]
       = Raise "Length of values (2) does not match length of index (1)".
Proof.
  do 2 eexists. split; vm_compute; reflexivity.
Qed.

(** ** More on [clean_text] *)

Lemma chars_length (s : string) : List.length (chars s) = String.length s.
Proof. unfold chars. induction s as [|a s IH]; cbn; congruence. Qed.

Lemma of_chars_length (l : list ascii) : String.length (of_chars l) = List.length l.
Proof. unfold of_chars. induction l as [|a l IH]; cbn; congruence. Qed.

Lemma lower_char_idem (c : ascii) : lower_char (lower_char c) = lower_char c.
Proof. each_char c. Qed.



(** X1. Letter case does not matter to [clean_text]: two texts with the
    same lowercase form (so a text and its lowercase form) are cleaned to
    the same string. *)
Theorem clean_text_ignores_case (s1 s2 : string) :
  lower s1 = lower s2 -> clean_text (VStr s1) = clean_text (VStr s2).
Proof.
  intros H. apply (f_equal chars) in H. unfold lower in H.
  rewrite !chars_of_chars in H.
  unfold clean_text, clean_chars. cbn [py_str]. now rewrite H.
Qed.

Lemma clean_text_ignores_case_witness :
  clean_text (VStr "Visit HTTP://X.Y Now") = clean_text (VStr "visit http://x.y NOW").
Proof.
  apply (clean_text_ignores_case "Visit HTTP://X.Y Now" "visit http://x.y NOW").
  reflexivity.
Defined.

(** X2. [clean_text] never returns more characters than [str] of its
    argument has. *)
Theorem clean_text_no_longer (text : PyValue) :
  (String.length (clean_text text) <= String.length (py_str text))%nat.
Proof.
  unfold clean_text. rewrite of_chars_length.
  pose proof (clean_chars_length (chars (py_str text))) as H1.
  pose proof (sub_url_length false (map lower_char (chars (py_str text)))) as H2.
  rewrite length_map, chars_length in H2. lia.
Qed.



(** *** Cleaning settles after two passes *)

Lemma at_url_spec (l : list ascii) :
  at_url l = true <->
  exists x l', l = ("h" :: "t" :: "t" :: "p" :: x :: l')%char%list
               /\ isspace x = false.
Proof.
  split.
  - intros H.
    destruct l as [|c1 [|c2 [|c3 [|c4 [|x l']]]]];
      try (destruct c1 as [[] [] [] [] [] [] [] []]; discriminate H);
      try discriminate H.
    + destruct c1 as [[] [] [] [] [] [] [] []]; try discriminate H.
      destruct c2 as [[] [] [] [] [] [] [] []]; discriminate H.
    + destruct c1 as [[] [] [] [] [] [] [] []]; try discriminate H.
      destruct c2 as [[] [] [] [] [] [] [] []]; try discriminate H.
      destruct c3 as [[] [] [] [] [] [] [] []]; discriminate H.
    + destruct c1 as [[] [] [] [] [] [] [] []]; try discriminate H.
      destruct c2 as [[] [] [] [] [] [] [] []]; try discriminate H.
      destruct c3 as [[] [] [] [] [] [] [] []]; try discriminate H.
      destruct c4 as [[] [] [] [] [] [] [] []]; discriminate H.
    + destruct c1 as [[] [] [] [] [] [] [] []]; try discriminate H.
      destruct c2 as [[] [] [] [] [] [] [] []]; try discriminate H.
      destruct c3 as [[] [] [] [] [] [] [] []]; try discriminate H.
      destruct c4 as [[] [] [] [] [] [] [] []]; try discriminate H.
      exists x, l'. split; [reflexivity|].
      cbn in H. now apply negb_true_iff in H.
  - intros [x [l' [-> H]]]. cbn. now rewrite H.
Qed.

Lemma at_url_space (c : ascii) (l : list ascii) :
  isspace c = true -> at_url (c :: l) = false.
Proof.
  intros H. destruct (at_url (c :: l)) eqn:E; [|reflexivity].
  apply at_url_spec in E as [x [l' [E _]]]. inversion E; subst. discriminate.
Qed.

Lemma sub_url_deleting_head (l : list ascii) (x : ascii) (r : list ascii) :
  sub_url true l = x :: r -> isspace x = true.
Proof.
  induction l as [|c l IH]; intros H; [discriminate|].
  cbn [sub_url] in H. destruct (isspace c) eqn:E; [|auto].
  now inversion H; subst.
Qed.

Lemma sub_url_head (l : list ascii) (x : ascii) (r : list ascii) :
  sub_url false l = x :: r -> isspace x = false ->
  exists l', l = x :: l' /\ r = sub_url false l'.
Proof.
  destruct l as [|c l]; intros H Hx; [discriminate|].
  cbn [sub_url] in H. destruct (at_url (c :: l)).
  - apply sub_url_deleting_head in H. congruence.
  - inversion H; subst. now exists l.
Qed.

Lemma sub_url_clears (l : list ascii) :
  forall b, has_url_chars (sub_url b l) = false.
Proof.
  induction l as [|c l IH]; intros b; [now destruct b|].
  cbn [sub_url]. destruct b.
  - destruct (isspace c) eqn:E; [|apply IH].
    cbn [has_url_chars]. now rewrite (at_url_space c _ E), IH.
  - destruct (at_url (c :: l)) eqn:E; [apply IH|].
    cbn [has_url_chars]. rewrite IH, orb_false_r.
    destruct (at_url (c :: sub_url false l)) eqn:E'; [|reflexivity].
    apply at_url_spec in E' as [x [l' [E1 Hx]]].
    inversion E1 as [[Hc H1]]. subst c.
    apply sub_url_head in H1 as [l1 [-> H1]]; [|reflexivity].
    symmetry in H1. apply sub_url_head in H1 as [l2 [-> H1]]; [|reflexivity].
    symmetry in H1. apply sub_url_head in H1 as [l3 [-> H1]]; [|reflexivity].
    symmetry in H1. apply sub_url_head in H1 as [l4 [-> H1]]; [|exact Hx].
    cbn in E. rewrite Hx in E. discriminate.
Qed.

Lemma sub_spaces_head (l : list ascii) (x : ascii) (r : list ascii) :
  sub_spaces false l = x :: r -> isspace x = false ->
  exists l', l = x :: l' /\ r = sub_spaces false l'.
Proof.
  destruct l as [|c l]; intros H Hx; [discriminate|].
  cbn [sub_spaces] in H. destruct (isspace c) eqn:E.
  - inversion H; subst. discriminate.
  - inversion H; subst. now exists l.
Qed.

Lemma sub_spaces_no_url (l : list ascii) :
  has_url_chars l = false -> forall b, has_url_chars (sub_spaces b l) = false.
Proof.
  induction l as [|c l IH]; intros H b; [reflexivity|].
  cbn [has_url_chars] in H. apply orb_false_iff in H as [H1 H2].
  cbn [sub_spaces]. destruct (isspace c) eqn:E.
  - destruct b; [now apply IH|].
    cbn [has_url_chars]. rewrite (at_url_space " " _ eq_refl). now apply IH.
  - cbn [has_url_chars]. rewrite (IH H2 false), orb_false_r.
    destruct (at_url (c :: sub_spaces false l)) eqn:E'; [|reflexivity].
    apply at_url_spec in E' as [x [l' [E1 Hx]]].
    inversion E1 as [[Hc H3]]. subst c.
    apply sub_spaces_head in H3 as [l1 [-> H3]]; [|reflexivity].
    symmetry in H3. apply sub_spaces_head in H3 as [l2 [-> H3]]; [|reflexivity].
    symmetry in H3. apply sub_spaces_head in H3 as [l3 [-> H3]]; [|reflexivity].
    symmetry in H3. apply sub_spaces_head in H3 as [l4 [-> H3]]; [|exact Hx].
    cbn in H1. rewrite Hx in H1. discriminate.
Qed.

Lemma lstrip_no_url (l : list ascii) :
  has_url_chars l = false -> has_url_chars (lstrip_chars l) = false.
Proof.
  induction l as [|c l IH]; intros H; [reflexivity|].
  cbn [lstrip_chars]. destruct (isspace c); [|exact H].
  cbn [has_url_chars] in H. apply orb_false_iff in H as [_ H]. auto.
Qed.

Lemma rstrip_prefix (l : list ascii) :
  exists q, l = (rstrip_chars l ++ q)%list.
Proof.
  induction l as [|c l [q IH]]; [now exists []|].
  cbn [rstrip_chars]. destruct (rstrip_chars l) as [|y r].
  - destruct (isspace c); [now exists (c :: l)|].
    exists q. cbn in IH |- *. now rewrite <- IH.
  - exists q. cbn in IH |- *. now rewrite <- IH.
Qed.

Lemma rstrip_no_url (l : list ascii) :
  has_url_chars l = false -> has_url_chars (rstrip_chars l) = false.
Proof.
  induction l as [|c l IH]; intros H; [reflexivity|].
  cbn [has_url_chars] in H. apply orb_false_iff in H as [H1 H2].
  specialize (IH H2). destruct (rstrip_prefix l) as [q Hq].
  cbn [rstrip_chars]. destruct (rstrip_chars l) as [|y r] eqn:Er.
  - destruct (isspace c); [reflexivity|].
    cbn [has_url_chars]. rewrite orb_false_r.
    destruct (at_url [c]) eqn:E; [|reflexivity].
    apply at_url_spec in E as [x [l' [E _]]]. discriminate.
  - cbn [has_url_chars] in IH |- *. rewrite IH, orb_false_r.
    destruct (at_url (c :: y :: r)) eqn:E; [|reflexivity].
    apply at_url_spec in E as [x [l' [E Hx]]].
    assert (E2 : at_url (c :: l) = true).
    { apply at_url_spec. exists x, (l' ++ q)%list. split; [|exact Hx].
      rewrite Hq. inversion E; subst. reflexivity. }
    congruence.
Qed.

Lemma clean_chars_clears (l : list ascii) :
  Forall (fun c => allowed_char c = true) l ->
  has_url_chars (clean_chars l) = false.
Proof.
  intros Ha. unfold clean_chars, strip_chars.
  apply rstrip_no_url, lstrip_no_url, sub_spaces_no_url.
  rewrite (map_lower_fixed _ Ha).
  assert (Hs : Forall (fun c => allowed_char c = true) (sub_url false l)).
  { apply Forall_forall. intros x Hx. apply sub_url_In in Hx.
    rewrite Forall_forall in Ha. auto. }
  rewrite (sub_special_fixed _ Hs). apply sub_url_clears.
Qed.

(** X4. Cleaning settles after two passes: a third application of
    [clean_text] never changes what the second returned. *)
Theorem clean_text_settles (text : PyValue) :
  clean_text (VStr (clean_text (VStr (clean_text text))))
  = clean_text (VStr (clean_text text)).
Proof.
  unfold clean_text. cbn [py_str]. rewrite !chars_of_chars. f_equal.
  apply clean_chars_twice, clean_chars_clears, clean_chars_allowed.
Qed.

(** ** More on the Response Parser and the Model Runner *)

Lemma string_length_app (a b : string) :
  String.length (a ++ b) = (String.length a + String.length b)%nat.
Proof. induction a as [|x a IH]; [reflexivity|]. cbn. now rewrite IH. Qed.

Lemma prefix_contains (a b s : string) :
  String.prefix (a ++ b) s = true -> contains b s = true.
Proof.
  revert s; induction a as [|x a IH]; intros s H.
  - cbn in H. destruct s; cbn [contains]; now rewrite H.
  - destruct s as [|y s]; [discriminate|]. cbn in H.
    destruct (ascii_dec x y); [|discriminate].
    cbn [contains]. rewrite (IH s H). apply orb_true_r.
Qed.

Lemma contains_suffix (a b s : string) :
  contains (a ++ b) s = true -> contains b s = true.
Proof.
  induction s as [|y s IH]; cbn [contains]; intros H.
  - rewrite orb_false_r in H. apply prefix_contains in H. exact H.
  - apply orb_true_iff in H as [H|H].
    + apply prefix_contains in H. exact H.
    + rewrite (IH H). apply orb_true_r.
Qed.

Lemma substring_all (s : string) : String.substring 0 (String.length s) s = s.
Proof. induction s as [|x s IH]; [reflexivity|]. cbn. now rewrite IH. Qed.

Lemma slice_from_app (p r : string) : slice_from (String.length p) (p ++ r) = r.
Proof.
  unfold slice_from. rewrite string_length_app.
  replace (String.length p + String.length r - String.length p)%nat
    with (String.length r) by lia.
  induction p as [|x p IH]; [apply substring_all|exact IH].
Qed.

Lemma slice_to_app (n : nat) (p r : string) :
  (n <= String.length p)%nat -> slice_to n (p ++ r) = slice_to n p.
Proof.
  unfold slice_to. revert p; induction n as [|n IH]; intros [|x p] H;
    cbn in H |- *; try lia.
  - now destruct r.
  - reflexivity.
  - rewrite IH; [reflexivity|lia].
Qed.

(** X5. Once no leading digit and no lone digit in the tail decides, the
    label is 1 exactly when the lowercased last 50 characters contain
    "bias": the tests for "regional bias", "non-regional" and "no bias"
    never change the label. *)
Theorem parse_response_bias_decides (generated_text full_output : string)
    (st : State) :
  startswith generated_text "1" = false ->
  startswith generated_text "0" = false ->
  contains "1" (tail50 full_output) = contains "0" (tail50 full_output) ->
  fst (parse_response generated_text full_output st)
  = Ok (if contains "bias" (tail50 full_output) then 1 else 0, full_output).
Proof.
  intros H1 H0 Hd. rewrite parse_response_fst.
  unfold first_match, spec_rules. rewrite H1, H0, Hd.
  destruct (String.eqb_spec generated_text "1") as [->|_]; [discriminate|].
  destruct (String.eqb_spec generated_text "0") as [->|_]; [discriminate|].
  cbn [orb]. rewrite andb_negb_r.
  destruct (contains "bias" (tail50 full_output)) eqn:Eb.
  - now rewrite orb_true_r.
  - destruct (contains "regional bias" (tail50 full_output)) eqn:Er.
    + apply (contains_suffix "regional " "bias") in Er. congruence.
    + cbn [orb]. now destruct (_ || _)%bool.
Qed.

Lemma parse_response_bias_decides_witness :
  fst (parse_response "There is" "There is no bias here" st0)
  = Ok (1, "There is no bias here").
Proof.
  exact (parse_response_bias_decides "There is" "There is no bias here" st0
           eq_refl eq_refl eq_refl).
Defined.

(** X6. The parser logs its "Unclear classification" warning exactly when no
    rule matches, and logs nothing otherwise. *)
Theorem parse_response_warns_on_default (generated_text full_output : string)
    (st : State) :
  log (snd (parse_response generated_text full_output st))
  = (log st
     ++ if existsb (fun r : rule => fst r generated_text full_output) spec_rules
        then []
        else [(WARNING, ("Unclear classification from response: "
                         ++ tail50 full_output)%string)])%list.
Proof.
  unfold parse_response, spec_rules, existsb, tail50. cbn [fst].
  repeat match goal with
         | |- context [if ?b then ret _ else _] =>
             destruct b; [cbn; now rewrite app_nil_r|]
         end.
  reflexivity.
Qed.

Section ModelRunnerFacts.

Variable generate : string -> Z -> outcome string.

(** X7. The Model Runner never raises.  When generation fails with [e] it
    returns label 0 with "ERROR: " ++ e and logs one error record; when
    generation succeeds it returns the decoded output unchanged with a
    label that is 0 or 1.  It touches neither the result lists nor the
    files. *)
Theorem predict_with_model_total (prompt : string) (max_length : Z) (st : State) :
  exists (label : Z) (raw : string) (st' : State),
    predict_with_model generate prompt max_length st = (Ok (label, raw), st')
    /\ (label = 0 \/ label = 1)
    /\ match generate prompt max_length with
       | Raise e =>
           label = 0 /\ raw = "ERROR: " ++ e
           /\ log st' = (log st ++ [(ERROR, ("Error in prediction: " ++ e)%string)])%list
       | Ok out => raw = out
       end
    /\ predictions st' = predictions st
    /\ raw_outputs st' = raw_outputs st
    /\ files st' = files st.
Proof.
  pose proof (predict_with_model_fst generate prompt max_length st) as Hf.
  pose proof (predict_with_model_keeps generate predictions prompt max_length
                (fun _ _ _ => eq_refl) st) as Hp.
  pose proof (predict_with_model_keeps generate raw_outputs prompt max_length
                (fun _ _ _ => eq_refl) st) as Hr.
  pose proof (predict_with_model_keeps generate files prompt max_length
                (fun _ _ _ => eq_refl) st) as Hfi.
  assert (Hl : forall e, generate prompt max_length = Raise e ->
            log (snd (predict_with_model generate prompt max_length st))
            = (log st ++ [(ERROR, ("Error in prediction: " ++ e)%string)])%list).
  { intros e He. unfold predict_with_model, try_except, bind, lift.
    now rewrite He. }
  destruct (predict_with_model generate prompt max_length st) as [o st'].
  cbn in Hf, Hp, Hr, Hfi, Hl. subst o.
  exists (fst (model_entry generate max_length prompt)),
         (snd (model_entry generate max_length prompt)), st'.
  split; [now destruct (model_entry generate max_length prompt)|].
  unfold model_entry in *.
  destruct (generate prompt max_length) as [out|e].
  - cbn. repeat split; auto. apply first_match_binary.
  - cbn. repeat split; auto.
Qed.

(** X8. When the decoded output echoes the prompt, the continuation is the
    stripped text after the prompt, and only it decides the first two
    rules: an answer that begins with 1 gives label 1 whatever digits
    the prompt holds. *)
Theorem predict_with_model_echo (prompt rest : string) (max_length : Z)
    (st : State) :
  generate prompt max_length = Ok (prompt ++ rest) ->
  continuation prompt (prompt ++ rest) = strip rest
  /\ fst (predict_with_model generate prompt max_length st)
     = Ok (first_match spec_rules 0 (strip rest) (prompt ++ rest), prompt ++ rest)
  /\ (startswith (strip rest) "1" = true ->
      fst (predict_with_model generate prompt max_length st)
      = Ok (1, prompt ++ rest)).
Proof.
  intros H.
  assert (Hc : continuation prompt (prompt ++ rest) = strip rest).
  { unfold continuation, startswith. now rewrite prefix_app, slice_from_app. }
  assert (Hf : fst (predict_with_model generate prompt max_length st)
               = Ok (first_match spec_rules 0 (strip rest) (prompt ++ rest),
                     prompt ++ rest)).
  { rewrite predict_with_model_fst. unfold model_entry. now rewrite H, Hc. }
  split; [exact Hc|]. split; [exact Hf|].
  intros H1. rewrite Hf. unfold first_match, spec_rules. now rewrite H1.
Qed.

(** X9. What is stored of an echoed output.  Raw outputs are cut to 500
    characters; when the decoded output echoes a prompt of 500
    characters or more, the stored text is the first 500 characters of
    the prompt and holds nothing the model generated. *)
Theorem truncation_keeps_prompt_only (prompt rest : string) (max_length : Z) :
  (500 <= String.length prompt)%nat ->
  generate prompt max_length = Ok (prompt ++ rest) ->
  truncated_outputs [snd (model_entry generate max_length prompt)]
  = [slice_to 500 prompt].
Proof.
  intros Hlen H. unfold model_entry, truncated_outputs. rewrite H.
  cbn [snd map]. now rewrite slice_to_app.
Qed.

End ModelRunnerFacts.

Lemma simplified_prompt_long (comment : string) :
  (500 <= String.length (simplified_prompt comment))%nat.
Proof.
  unfold simplified_prompt. rewrite !string_length_app.
  change (String.length instructions) with 424%nat.
  cbn [String.length nl dq]. lia.
Qed.

Lemma predict_with_model_echo_witness :
  continuation "Classification:" ("Classification:" ++ " 1 (regional)")
    = strip " 1 (regional)"
  /\ fst (predict_with_model (fun p _ => Ok (p ++ " 1 (regional)"))
            "Classification:" 4096 st0)
     = Ok (first_match spec_rules 0 (strip " 1 (regional)")
             ("Classification:" ++ " 1 (regional)"),
           "Classification:" ++ " 1 (regional)")
  /\ (startswith (strip " 1 (regional)") "1" = true ->
      fst (predict_with_model (fun p _ => Ok (p ++ " 1 (regional)"))
             "Classification:" 4096 st0)
      = Ok (1, "Classification:" ++ " 1 (regional)")).
Proof.
  exact (predict_with_model_echo (fun p _ => Ok (p ++ " 1 (regional)"))
           "Classification:" " 1 (regional)" 4096 st0 eq_refl).
Defined.

Lemma truncation_keeps_prompt_only_witness :
  truncated_outputs
    [snd (model_entry demo_generate 4096 (simplified_prompt "fine"))]
  = [slice_to 500 (simplified_prompt "fine")].
Proof.
  apply (truncation_keeps_prompt_only demo_generate (simplified_prompt "fine") " 1").
  - apply simplified_prompt_long.
  - vm_compute. reflexivity.
Defined.

(** ** More on the Batch Driver and on saving results *)

Lemma filter_none {A} (f : A -> bool) (l : list A) :
  (forall x, In x l -> f x = false) -> filter f l = [].
Proof.
  induction l as [|a l IH]; intros H; [reflexivity|].
  cbn. rewrite (H a (or_introl eq_refl)). apply IH. intros x Hx. apply H. now right.
Qed.




Lemma assign_column_Raise {A B} (df : list A) (column : list B) :
  List.length column <> List.length df ->
  exists e, assign_column df column = Raise e.
Proof.
  intros H. unfold assign_column. apply Nat.eqb_neq in H. rewrite H. eauto.
Qed.


Section BatchFacts.

Variable permutation : Z -> nat -> list nat.
Variable count_tokens : string -> outcome Z.
Variable generate : string -> Z -> outcome string.
Variables (test_df examples_df : list Row).
Variables (max_length random_seed checkpoint_interval : Z).
Variable output_dir : option string.

Local Abbreviation tc := (test_comments test_df).
Local Abbreviation entry :=
  (record_entry permutation count_tokens generate examples_df max_length random_seed).
Local Abbreviation entries :=
  (entries_of permutation count_tokens generate examples_df max_length
              random_seed checkpoint_interval output_dir).
Local Abbreviation is_counted :=
  (counted permutation count_tokens examples_df random_seed).
Local Abbreviation written :=
  (checkpoint_written permutation count_tokens test_df examples_df
                      random_seed checkpoint_interval output_dir).
Local Abbreviation run :=
  (batch_predict permutation count_tokens generate test_df examples_df
                 max_length random_seed checkpoint_interval output_dir).

Lemma result_rows_expected :
  result_rows test_df (map (fun r => fst (entry (Cleaned_Comment r))) test_df)
                      (map (fun r => snd (entry (Cleaned_Comment r))) test_df)
  = map (expected_row permutation count_tokens generate examples_df
           max_length random_seed) test_df.
Proof. unfold result_rows. rewrite combine_maps, map_map. reflexivity. Qed.

(** X11. Every checkpoint the run writes agrees with the final results, also
    when records fail: each file written during the run is the
    checkpoint of a due record count [m], and holds exactly the first
    [m] rows of the final results.  Without an output directory, or with
    interval 0, the run writes no file. *)
Theorem checkpoints_consistent (st : State) :
  exists (preds : list Z) (raws : list string) (st' : State)
         (new : list (string * list CkRow)),
    run st = (Ok (preds, raws), st')
    /\ files st' = (files st ++ new)%list
    /\ (truthy output_dir = false \/ checkpoint_interval = 0 -> new = [])
    /\ (forall path rows, In (path, rows) new ->
          exists m,
            (1 <= m <= List.length test_df)%nat
            /\ checkpoint_due test_df checkpoint_interval m = true
            /\ path = checkpoint_path output_dir m
            /\ rows = firstn m (result_rows test_df preds raws)
            /\ List.length rows = m).
Proof.
  destruct (batch_predict_run permutation count_tokens generate test_df
              examples_df max_length random_seed checkpoint_interval
              output_dir st) as [st' [E F]].
  do 4 eexists. split; [exact E|]. split; [exact F|]. split.
  - intros H. rewrite filter_none; [reflexivity|].
    intros m _. unfold checkpoint_written.
    destruct H as [->| ->]; [reflexivity|]. cbn. now rewrite andb_false_r.
  - intros path rows Hin. apply in_map_iff in Hin as [m [Hm Hin]].
    apply filter_In in Hin as [Hseq Hw]. apply in_seq in Hseq.
    unfold checkpoint_written in Hw.
    apply andb_true_iff in Hw as [Hw _].
    apply andb_true_iff in Hw as [Hw Hdue].
    apply andb_true_iff in Hw as [Ht Hk]. apply negb_true_iff in Hk.
    assert (Hmod : modulo_raises checkpoint_interval output_dir = false).
    { unfold modulo_raises. now rewrite Hk, andb_false_r. }
    unfold checkpoint_file in Hm. inversion Hm; subst path rows.
    exists m. split; [lia|]. split; [exact Hdue|]. split; [reflexivity|].
    rewrite (entries_plain permutation count_tokens generate examples_df
               max_length random_seed checkpoint_interval output_dir _ Hmod).
    unfold test_comments. rewrite !map_map, result_rows_expected, firstn_map.
    split; [reflexivity|]. rewrite length_map, length_firstn. lia.
Qed.


Lemma entries_length_doubled (l : list string) :
  modulo_raises checkpoint_interval output_dir = true ->
  List.length (flat_map entries l)
  = (List.length l + List.length (filter is_counted l))%nat.
Proof.
  intros H. induction l as [|c l IH]; [reflexivity|].
  cbn [flat_map filter]. rewrite length_app, IH. unfold entries_of at 1.
  rewrite H. cbn [andb]. destruct (is_counted c); cbn [List.length]; lia.
Qed.

(** X13. With an output directory and checkpoint interval 0, every record
    whose tokens were counted leaves two entries, and as soon as one
    record is counted the returned lists are longer than the test set
    and [save_results] cannot attach them. *)
Theorem zero_interval_results_unsaved (st : State) (c : string) :
  modulo_raises checkpoint_interval output_dir = true ->
  In c tc -> is_counted c = true ->
  exists (preds : list Z) (raws : list string) (st' : State) (e : string),
    run st = (Ok (preds, raws), st')
    /\ List.length preds
       = (List.length test_df + List.length (filter is_counted tc))%nat
    /\ (List.length test_df < List.length preds)%nat
    /\ results_frame test_df preds raws = Raise e.
Proof.
  intros Hm Hin Hc.
  destruct (batch_predict_run permutation count_tokens generate test_df
              examples_df max_length random_seed checkpoint_interval
              output_dir st) as [st' [E _]].
  assert (Hlen : List.length (map fst (flat_map entries tc))
                 = (List.length test_df + List.length (filter is_counted tc))%nat).
  { rewrite length_map, (entries_length_doubled _ Hm).
    unfold test_comments at 1. now rewrite length_map. }
  assert (Hpos : (0 < List.length (filter is_counted tc))%nat).
  { assert (In c (filter is_counted tc)) as H by (apply filter_In; now split).
    destruct (filter is_counted tc); [destruct H|cbn; lia]. }
  destruct (assign_column_Raise test_df (map fst (flat_map entries tc)))
    as [e He]; [lia|].
  do 3 eexists. exists e. split; [exact E|]. split; [exact Hlen|].
  split; [lia|]. unfold results_frame. now rewrite He.
Qed.

End BatchFacts.

Lemma correct_count_all_ones (test_df : list Row) :
  correct_count (true_labels test_df) (map (fun _ => 1) test_df)
  = List.length (filter (fun r => Level_1 r >=? 1) test_df).
Proof.
  unfold correct_count, true_labels.
  induction test_df as [|r l IH]; [reflexivity|].
  cbn [map combine filter fst snd].
  destruct (Level_1 r >=? 1); cbn [Z.eqb List.length]; now rewrite <- IH.
Qed.

Section StubModel.

Variable permutation : Z -> nat -> list nat.
Variable count_tokens : string -> outcome Z.
Variable generate : string -> Z -> outcome string.
Variables (test_df examples_df : list Row).
Variables (max_length random_seed checkpoint_interval : Z).
Variable output_dir : option string.

(** A model that echoes its prompt and answers with text beginning
    with 1. *)
Hypothesis answers_one :
  forall prompt, exists rest,
    generate prompt max_length = Ok (prompt ++ rest)
    /\ startswith (strip rest) "1" = true.

Hypothesis all_counted :
  forall c, In c (test_comments test_df) ->
    counted permutation count_tokens examples_df random_seed c = true.

Hypothesis modulo_defined :
  modulo_raises checkpoint_interval output_dir = false.

Lemma stub_entry (c : string) :
  In c (test_comments test_df) ->
  fst (record_entry permutation count_tokens generate examples_df
                    max_length random_seed c) = 1.
Proof.
  intros Hin. specialize (all_counted c Hin).
  unfold counted in all_counted. unfold record_entry, model_entry.
  destruct (count_tokens _) as [n|e]; [|discriminate].
  destruct (answers_one (prompt_for permutation examples_df max_length
                                    random_seed n c)) as [rest [Hg H1]].
  rewrite Hg. cbn [fst].
  match goal with
  | |- context [continuation ?p (?p ++ rest)] =>
      assert (Hc : continuation p (p ++ rest) = strip rest)
        by (unfold continuation, startswith;
            now rewrite prefix_app, slice_from_app);
      rewrite Hc
  end.
  unfold first_match, spec_rules. now rewrite H1.
Qed.

(** X15. End to end with a stub model that always answers 1: every record
    is predicted 1, and the number of correct predictions is the number
    of test rows whose level is at least 1. *)
Theorem stub_model_predicts_one (st : State) :
  exists (raws : list string) (st' : State),
    batch_predict permutation count_tokens generate test_df examples_df
                  max_length random_seed checkpoint_interval output_dir st
    = (Ok (map (fun _ => 1) test_df, raws), st')
    /\ List.length raws = List.length test_df
    /\ correct_count (true_labels test_df) (map (fun _ => 1) test_df)
       = List.length (filter (fun r => Level_1 r >=? 1) test_df).
Proof.
  destruct (batch_predict_run permutation count_tokens generate test_df
              examples_df max_length random_seed checkpoint_interval
              output_dir st) as [st' [E _]].
  rewrite (entries_plain permutation count_tokens generate examples_df
             max_length random_seed checkpoint_interval output_dir _
             modulo_defined) in E.
  rewrite !map_map in E.
  assert (Hall : map (fun x => fst (record_entry permutation count_tokens generate
                                      examples_df max_length random_seed x))
                     (test_comments test_df)
                 = map (fun _ => 1) test_df).
  { unfold test_comments. rewrite map_map. apply map_ext_in.
    intros r Hr. apply stub_entry. unfold test_comments. now apply in_map. }
  rewrite Hall in E.
  do 2 eexists. split; [exact E|]. split.
  - unfold test_comments. now rewrite !length_map.
  - apply correct_count_all_ones.
Qed.

End StubModel.

Lemma stub_model_predicts_one_witness :
  exists (raws : list string) (st' : State),
    batch_predict demo_permutation demo_count (fun p _ => Ok (p ++ " 1"))
                  demo_counted_tests demo_examples 4096 42 10 (Some "out") st0
    = (Ok ([1; 1; 1], raws), st')
    /\ List.length raws = 3%nat
    /\ correct_count (true_labels demo_counted_tests) [1; 1; 1] = 2%nat.
Proof.
  apply (stub_model_predicts_one demo_permutation demo_count
           (fun p _ => Ok (p ++ " 1")) demo_counted_tests demo_examples
           4096 42 10 (Some "out")).
  - intros prompt. exists " 1". split; reflexivity.
  - intros c [<-|[<-|[<-|[]]]]; vm_compute; reflexivity.
  - reflexivity.
Defined.



Lemma zero_interval_results_unsaved_witness :
  exists (preds : list Z) (raws : list string) (st' : State) (e : string),
    demo_run demo_tests 4096 0 (Some "out") = (Ok (preds, raws), st')
    /\ List.length preds
       = (List.length demo_tests
          + List.length (filter (counted demo_permutation demo_count demo_examples 42)
                                (test_comments demo_tests)))%nat
    /\ (List.length demo_tests < List.length preds)%nat
    /\ results_frame demo_tests preds raws = Raise e.
Proof.
  apply (zero_interval_results_unsaved demo_permutation demo_count demo_generate
           demo_tests demo_examples 4096 42 0 (Some "out") st0 "fine").
  - reflexivity.
  - left. reflexivity.
  - vm_compute. reflexivity.
Defined.

(** X14. An empty test set: the run returns two empty lists and writes no
    file, whatever the configuration. *)
Theorem batch_predict_empty (permutation : Z -> nat -> list nat)
    (count_tokens : string -> outcome Z)
    (generate : string -> Z -> outcome string) (examples_df : list Row)
    (max_length random_seed checkpoint_interval : Z)
    (output_dir : option string) (st : State) :
  exists st',
    batch_predict permutation count_tokens generate [] examples_df
                  max_length random_seed checkpoint_interval output_dir st
    = (Ok ([], []), st')
    /\ files st' = files st.
Proof.
  destruct (batch_predict_run permutation count_tokens generate [] examples_df
              max_length random_seed checkpoint_interval output_dir st)
    as [st' [E F]].
  exists st'. split; [exact E|]. cbn in F. now rewrite app_nil_r in F.
Qed.

(** ** More on the Dataset Loader and the Prompt Builder *)

Section LoaderFacts.

Variable read_csv : string -> option (list RawRow).


(** X18. The class-balance check is advisory: when both files exist the
    loader logs one warning if the examples do not hold exactly 75 rows
    of level 1 or more and 75 rows of level 0, and no warning
    otherwise; it returns the cleaned examples and a test frame either
    way. *)
Theorem load_datasets_balance_warning (examples_path test_path : string)
    (test_limit : option Z) (st : State) (examples test : list RawRow) :
  read_csv examples_path = Some examples ->
  read_csv test_path = Some test ->
  exists kept new,
    fst (load_datasets read_csv examples_path test_path test_limit st)
    = Ok (map add_cleaned examples, kept)
    /\ log (snd (load_datasets read_csv examples_path test_path test_limit st))
       = (log st ++ new)%list
    /\ List.length (filter is_warning new)
       = if ((len (filter (fun r => raw_Level_1 r >=? 1) examples) =? 75)
             && (len (filter (fun r => raw_Level_1 r =? 0) examples) =? 75))%bool
         then 0%nat else 1%nat.
Proof.
  intros Hex Htest. unfold load_datasets. rewrite Hex, Htest.
  destruct (len (filter (fun r => raw_Level_1 r >=? 1) examples) =? 75);
    destruct (len (filter (fun r => raw_Level_1 r =? 0) examples) =? 75);
    cbn [negb orb andb];
    (destruct test_limit as [n|]; [destruct (n >? 0)|]);
    cbv [bind logger ret]; cbn [fst snd log];
    rewrite <- ?app_assoc; do 2 eexists;
    (split; [reflexivity|split; reflexivity]).
Qed.

End LoaderFacts.

Lemma load_datasets_balance_warning_witness :
  exists kept new,
    fst (load_datasets demo_csv "examples.csv" "test.csv" None st0)
    = Ok (map add_cleaned
            [mkRawRow (VStr " Biharis are lazy ") 2; mkRawRow (VStr "Nice weather") 0],
          kept)
    /\ log (snd (load_datasets demo_csv "examples.csv" "test.csv" None st0))
       = (log st0 ++ new)%list
    /\ List.length (filter is_warning new) = 1%nat.
Proof.
  exact (load_datasets_balance_warning demo_csv "examples.csv" "test.csv" None st0
           _ _ eq_refl eq_refl).
Defined.

Lemma join_length (blocks : list string) :
  String.length (join blocks) = list_sum (map String.length blocks).
Proof.
  induction blocks as [|b l IH]; [reflexivity|].
  cbn [join fold_right map list_sum]. rewrite string_length_app. f_equal. exact IH.
Qed.

Lemma list_sum_Permutation (l l' : list nat) :
  Permutation l l' -> list_sum l = list_sum l'.
Proof. induction 1; unfold list_sum in *; cbn in *; lia. Qed.

Lemma example_lines_length (r : Row) :
  String.length (example_lines r) = (31 + String.length (Cleaned_Comment r))%nat.
Proof.
  unfold example_lines. rewrite !string_length_app.
  destruct (Level_1 r >=? 1); cbn; lia.
Qed.

Section PromptSize.

Variable permutation : Z -> nat -> list nat.

Hypothesis permutation_ok :
  forall seed n, Permutation (permutation seed n) (seq 0 n).

(** X19. The size of the full prompt does not depend on the seed: it is 479
    characters of fixed text, the target comment, and for each example
    31 characters and its cleaned comment. *)
Theorem few_shot_prompt_size (examples_df : list Row) (comment : string)
    (seed : Z) :
  String.length (create_few_shot_prompt permutation examples_df comment seed)
  = (479 + String.length comment
     + list_sum (map (fun r => 31 + String.length (Cleaned_Comment r))
                     examples_df))%nat.
Proof.
  unfold create_few_shot_prompt. rewrite fold_left_lines.
  rewrite !string_length_app, join_length.
  rewrite (list_sum_Permutation _ _
             (Permutation_map String.length
                (Permutation_map example_lines
                   (sample_Permutation permutation permutation_ok examples_df seed)))).
  rewrite map_map. rewrite (map_ext _ _ example_lines_length).
  unfold target_block. rewrite !string_length_app.
  change (String.length instructions) with 424%nat.
  cbn [String.length nl dq]. lia.
Qed.

End PromptSize.

Lemma few_shot_prompt_size_witness :
  String.length (create_few_shot_prompt demo_permutation demo_examples "fine" 7)
  = (479 + String.length "fine"
     + list_sum (map (fun r => 31 + String.length (Cleaned_Comment r))
                     demo_examples))%nat.
Proof.
  exact (few_shot_prompt_size demo_permutation demo_permutation_ok demo_examples "fine" 7).
Defined.
